(** * The VIN-seeded health and telemetry synthesizer of the Techions frontend

    The React frontend fills its views with synthetic data when the backend
    has no telemetry for a vehicle.  Three functions do this:

    - [VehicleMonitoring.getLatestHealthScore] and
      [VehicleMonitoring.generateSampleTelemetry]
      (frontend/src/pages/VehicleMonitoring.jsx), and
    - [CustomerDashboard.generateSampleTelemetryForHealth]
      (frontend/src/pages/CustomerDashboard.jsx).

    They are embedded below, one definition per source function, over a small
    model of the JavaScript values and built-ins they use.  The code of the
    two pages around them is embedded too: [loadTelemetry] and the fallback
    prediction of [runPrediction] in the monitoring view;
    [getHealthScoreForVehicle], the loop that fills the health data, the
    health shown on a vehicle card and the alerts in the customer dashboard.

    Numbers.  JavaScript numbers are binary64 floats.  The seed is a sum of
    16-bit code units, far below 2^53 for any string an engine can hold, and
    every health score is [48], [72] or [82] plus an integer in [-3, 3]: all
    of these, their products with [10] and the quotients back are integers
    that binary64 represents exactly, so integer and rational arithmetic
    ([Z], [Q]) computes what the floats compute.  The
    remaining readings (voltage, vibration, risk) are decimal fractions; the
    model carries the decimal that the rounded float prints as. *)

From Stdlib Require Import ZArith QArith Qminmax Qround.
From Stdlib Require Import List Sorted String Ascii Lia Bool.
From Stdlib Require Import Floats Permutation DecimalString.

Set Warnings "-inexact-float".
Import ListNotations.

(** ** JavaScript values and built-ins *)

Module JS.

(** A string is its sequence of UTF-16 code units. *)
Definition jsstring := list N.

(** String literals of the source. *)
Definition str (s : string) : jsstring :=
  map N_of_ascii (list_ascii_of_string s).

(** The values a [vin] property can hold. *)
Inductive value :=
| Undefined
| Null
| Str (s : jsstring).

(** ToBoolean: [undefined], [null] and the empty string are falsy. *)
Definition truthy (v : value) : bool :=
  match v with
  | Str (_ :: _) => true
  | _ => false
  end.

Inductive error := TypeError | RangeError.

Inductive result (A : Type) :=
| OK (a : A)
| Throw (e : error).
Arguments OK {A} a.
Arguments Throw {A} e.

Definition bind {A B} (r : result A) (k : A -> result B) : result B :=
  match r with
  | OK a => k a
  | Throw e => Throw e
  end.

(** [s === t] on strings. *)
Fixpoint strict_eq (s t : jsstring) : bool :=
  match s, t with
  | [], [] => true
  | c :: s', d :: t' => N.eqb c d && strict_eq s' t'
  | _, _ => false
  end.

Fixpoint startsWith (s pat : jsstring) : bool :=
  match pat, s with
  | [], _ => true
  | p :: pat', c :: s' => N.eqb c p && startsWith s' pat'
  | _ :: _, [] => false
  end.

(** [s.includes(pat)]. *)
Fixpoint includes (s pat : jsstring) : bool :=
  startsWith s pat ||
  match s with
  | [] => false
  | _ :: s' => includes s' pat
  end.

(** The class [\d] without the unicode flag: the ten ASCII digits. *)
Definition is_digit (c : N) : bool := (48 <=? c)%N && (c <=? 57)%N.

Fixpoint digit_run (s : jsstring) : jsstring :=
  match s with
  | c :: s' => if is_digit c then c :: digit_run s' else []
  | [] => []
  end.

(** [s.match(/\d+/)]: [None] for [null], else the match array, kept as its
    element [0], the leftmost, greedy run of digits. *)
Fixpoint match_digits (s : jsstring) : option jsstring :=
  match s with
  | [] => None
  | c :: s' => if is_digit c then Some (c :: digit_run s') else match_digits s'
  end.

(** [s.split('')] is the array of one-unit substrings of [s]; each is
    identified with its unit, which is what [char.charCodeAt(0)] reads. *)
Definition split_chars (s : jsstring) : list N := s.
Definition charCodeAt0 (char : N) : Z := Z.of_N char.

(** [arr.reduce(f, init)]. *)
Definition reduce {A B} (f : B -> A -> B) (init : B) (arr : list A) : B :=
  fold_left f arr init.

(** Method calls on a value: a [TypeError] on [undefined] and [null]. *)
Definition call {A} (v : value) (method : jsstring -> A) : result A :=
  match v with
  | Str s => OK (method s)
  | _ => Throw TypeError
  end.

(** Optional chaining [v?.method(...)]: [None] is [undefined]. *)
Definition call_opt {A} (v : value) (method : jsstring -> A) : option A :=
  match v with
  | Str s => Some (method s)
  | _ => None
  end.

(** [m?.[0]] on the optional result of an optional call. *)
Definition opt_index {A} (m : option (option A)) : option A :=
  match m with
  | Some (Some a) => Some a
  | _ => None
  end.

(** [x || d] for an optional string: the empty string is falsy too. *)
Definition or_str (x : option jsstring) (d : jsstring) : jsstring :=
  match x with
  | Some (c :: s) => c :: s
  | _ => d
  end.

(** [x || d] for an optional number: [0] is falsy too. *)
Definition or_num (x : option Z) (d : Z) : Z :=
  match x with
  | Some 0%Z | None => d
  | Some n => n
  end.

(** [b || x] in a condition, [x] an optional boolean. *)
Definition or_cond (b : bool) (x : option bool) : bool :=
  b || match x with Some c => c | None => false end.

(** [b || e] where evaluating [e] may throw: [e] is not evaluated when [b]
    holds. *)
Definition or_lazy (b : bool) (e : result bool) : result bool :=
  if b then OK true else e.

(** [x < y] on numbers. *)
Definition num_lt (x y : Q) : bool := negb (Qle_bool y x).

(** [Math.round]: the nearest integer, ties upwards. *)
Definition Math_round (x : Q) : Z := Qfloor (x + 0.5).

(** *** Dates *)

(** The largest time value, in milliseconds around the epoch. *)
Definition maxTime : Z := 8640000000000000.

(** A Date object holds a time value or NaN ([None], an invalid date). *)
Definition Date := option Z.

(** [new Date(t)]: TimeClip. *)
Definition new_Date (t : Z) : Date :=
  if (- maxTime <=? t)%Z && (t <=? maxTime)%Z then Some t else None.

(** What [new Date()] reads: the current time, a time value at or after the
    epoch. *)
Record Clock := {
  getTime : Z;
  getTime_range : (0 <=? getTime)%Z && (getTime <=? maxTime)%Z = true
}.

(** [new Date()]. *)
Definition Date_now (now : Clock) : Date := Some (getTime now).

(** An ISO-8601 string, kept as the time value it renders. *)
Inductive ISOString := ISO (t : Z).

Definition time_of (s : ISOString) : Z := match s with ISO t => t end.

(** [d.toISOString()]: a [RangeError] on an invalid date. *)
Definition toISOString (d : Date) : result ISOString :=
  match d with
  | Some t => OK (ISO t)
  | None => Throw RangeError
  end.


(** *** Arrays, objects and requests *)

(** [arr.sort(compare)].  The sort is stable, and for a comparator that
    orders consistently its result is the one of a stable insertion sort: an
    element goes before the first later element [y] with
    [compare(x, y) <= 0]. *)
Fixpoint sort_insert {A} (compare : A -> A -> Z) (x : A) (l : list A) : list A :=
  match l with
  | [] => [x]
  | y :: l' =>
    if (compare x y <=? 0)%Z then x :: y :: l' else y :: sort_insert compare x l'
  end.

Definition sort {A} (compare : A -> A -> Z) (arr : list A) : list A :=
  fold_right (sort_insert compare) [] arr.

(** [v === w], which is also the equality of [Set.prototype.has]. *)
Definition same_value (v w : value) : bool :=
  match v, w with
  | Undefined, Undefined => true
  | Null, Null => true
  | Str s, Str t => strict_eq s t
  | _, _ => false
  end.

(** [set.has(v)] for a [Set] built from an array. *)
Definition Set_has (elements : list value) (v : value) : bool :=
  existsb (same_value v) elements.

(** The key under which [obj[v]] reads and writes. *)
Definition property_key (v : value) : jsstring :=
  match v with
  | Undefined => str "undefined"
  | Null => str "null"
  | Str s => s
  end.

(** A plain object used as a map, as the list of its assignments, newest
    first: a later assignment to a key hides the earlier ones. *)
Definition object (A : Type) := list (jsstring * A).

Definition obj_set {A} (o : object A) (key : jsstring) (a : A) : object A :=
  (key, a) :: o.

Fixpoint obj_get {A} (o : object A) (key : jsstring) : option A :=
  match o with
  | [] => None
  | (k, a) :: o' => if strict_eq k key then Some a else obj_get o' key
  end.

(** The outcome of an awaited request: the promise rejects or resolves. *)
Inductive response (A : Type) :=
| Rejected
| Resolved (a : A).
Arguments Rejected {A}.
Arguments Resolved {A} a.

(** [x || d] for an optional number read off a JSON document (never NaN):
    [undefined], [null] and [0] are falsy. *)
Definition or_number (x : option Q) (d : Q) : Q :=
  match x with
  | Some h => if Qeq_bool h 0 then d else h
  | None => d
  end.

(** [x || e] for an optional number, where evaluating [e] may throw. *)
Definition or_number_lazy (x : option Q) (e : result Q) : result Q :=
  match x with
  | Some h => if Qeq_bool h 0 then e else OK h
  | None => e
  end.

(** [arr.map((x, index) => f(x, index))]. *)
Fixpoint map_from {A B} (f : A -> nat -> B) (index : nat) (arr : list A) : list B :=
  match arr with
  | [] => []
  | x :: arr' => f x index :: map_from f (S index) arr'
  end.

Definition map_index {A B} (f : A -> nat -> B) (arr : list A) : list B :=
  map_from f 0 arr.

(** The decimal digits of an array index, as a template literal prints it. *)
Definition index_string (index : nat) : jsstring :=
  str (NilEmpty.string_of_uint (Nat.to_uint index)).

(** *** binary64 arithmetic

    Sums of decimal literals are not exact in binary64 ([0.1 + 0.1 + 0.1] is
    above [0.3]); where the source adds such literals and compares the sum,
    the model computes in the kernel's binary64 floats. *)

(** [Math.min(x, y)]. *)
Definition Math_min (x y : float) : float :=
  if PrimFloat.is_nan x || PrimFloat.is_nan y then PrimFloat.nan
  else if PrimFloat.ltb x y then x
  else if PrimFloat.ltb y x then y
  else if PrimFloat.get_sign x then x else y.

End JS.

Import JS.

Declare Scope js_scope.
Notation "x <- e ;; k" := (bind e (fun x => k))
  (at level 61, e at next level, right associativity) : js_scope.
Open Scope js_scope.
Open Scope Q_scope.

(** ** frontend/src/pages/VehicleMonitoring.jsx *)

Module VehicleMonitoring.

(** A telemetry record, as the backend sends it and as
    [generateSampleTelemetry] builds it.  [health_score] is [None] when the
    property is [undefined] or [null] (a backend record may lack it); the
    other properties are never tested for absence by the code below. *)
Record TelemetrySample := {
  vin : value;
  timestamp : ISOString;
  engine_temperature : Q;
  oil_pressure : Q;
  vibration_level : Q;
  battery_voltage : Q;
  speed : Z;
  mileage : Z;
  health_score : option Q;
  prediction_risk : Q;
  error_codes : list jsstring;
  anomaly_detected : bool
}.

(** [getLatestHealthScore(vin)], lines 120-158; [telemetry] is the view's
    state that the closure reads. *)
Definition getLatestHealthScore (telemetry : list TelemetrySample) (vin : value)
  : result Q :=
  if negb (truthy vin) || (List.length telemetry =? 0)%nat then
    let vinNumber := or_str (opt_index (call_opt vin match_digits)) (str "001") in
    let baseHealth :=
      if or_cond (strict_eq vinNumber (str "001"))
                 (call_opt vin (fun s => includes s (str "VIN001")))
      then 48.0
      else if or_cond (strict_eq vinNumber (str "002"))
                      (call_opt vin (fun s => includes s (str "VIN002")))
      then 72.0
      else 82.0 in
    let vinSeed :=
      or_num (call_opt vin (fun s =>
                reduce (fun acc char => (acc + charCodeAt0 char)%Z) 0%Z
                       (split_chars s))) 0 in
    let variation := (Z.rem vinSeed 7 - 3)%Z in
    let healthScore := Qmax 30 (Qmin 100 (baseHealth + inject_Z variation)) in
    OK (inject_Z (Math_round (healthScore * 10)) / 10)
  else
    match nth_error telemetry 0 with
    | None => Throw TypeError
    | Some latest =>
      match health_score latest with
      | Some h => OK h
      | None =>
        let vinNumber := or_str (opt_index (call_opt vin match_digits)) (str "001") in
        let baseHealth :=
          if or_cond (strict_eq vinNumber (str "001"))
                     (call_opt vin (fun s => includes s (str "VIN001")))
          then 48.0
          else if or_cond (strict_eq vinNumber (str "002"))
                          (call_opt vin (fun s => includes s (str "VIN002")))
          then 72.0
          else 82.0 in
        let vinSeed :=
          or_num (call_opt vin (fun s =>
                    reduce (fun acc char => (acc + charCodeAt0 char)%Z) 0%Z
                           (split_chars s))) 0 in
        let variation := (Z.rem vinSeed 7 - 3)%Z in
        let healthScore := Qmax 30 (Qmin 100 (baseHealth + inject_Z variation)) in
        OK (inject_Z (Math_round (healthScore * 10)) / 10)
      end
    end.

(** The readings that the three branches on [healthScore] assign
    (lines 189-218). *)
Record Readings := {
  engineTemp : Q;
  oilPressure : Q;
  batteryVoltage : Q;
  vibrationLevel : Q;
  errorCodes : list jsstring;
  anomalyDetected : bool;
  predictionRisk : Q
}.

(** One iteration of the loop of [generateSampleTelemetry] (lines 182-233):
    the object that [data.push] receives. *)
Definition iteration (now : Clock) (vin : value) (baseHealth : Q)
    (vinSeed i : Z) : result TelemetrySample :=
  let timestamp := new_Date (getTime now - i * 60000)%Z in
  let variation := (Z.rem (vinSeed + i) 7 - 3)%Z in
  let healthScore := Qmax 30 (Qmin 100 (baseHealth + inject_Z variation)) in
  let r :=
    if num_lt healthScore 50 then
      {| engineTemp := 95 + inject_Z (Z.rem (vinSeed + i) 8);
         oilPressure := 28 + inject_Z (Z.rem (vinSeed + i) 5);
         batteryVoltage := 11.9 + inject_Z (Z.rem (vinSeed + i) 3) * 0.1;
         vibrationLevel := 0.85 + inject_Z (Z.rem (vinSeed + i) 2) * 0.1;
         errorCodes := [str "P0300"; str "P0171"];
         anomalyDetected := true;
         predictionRisk := 0.65 + inject_Z (Z.rem (vinSeed + i) 10) * 0.01 |}
    else if num_lt healthScore 70 then
      {| engineTemp := 88 + inject_Z (Z.rem (vinSeed + i) 6);
         oilPressure := 32 + inject_Z (Z.rem (vinSeed + i) 6);
         batteryVoltage := 12.2 + inject_Z (Z.rem (vinSeed + i) 3) * 0.1;
         vibrationLevel := 0.65 + inject_Z (Z.rem (vinSeed + i) 2) * 0.1;
         errorCodes := [];
         anomalyDetected := (Z.rem (vinSeed + i) 3 =? 0)%Z;
         predictionRisk := 0.35 + inject_Z (Z.rem (vinSeed + i) 10) * 0.01 |}
    else
      {| engineTemp := 85 + inject_Z (Z.rem (vinSeed + i) 5);
         oilPressure := 38 + inject_Z (Z.rem (vinSeed + i) 5);
         batteryVoltage := 12.6 + inject_Z (Z.rem (vinSeed + i) 2) * 0.1;
         vibrationLevel := 0.55 + inject_Z (Z.rem (vinSeed + i) 2) * 0.05;
         errorCodes := [];
         anomalyDetected := false;
         predictionRisk := 0.15 + inject_Z (Z.rem (vinSeed + i) 5) * 0.01 |} in
  iso <- toISOString timestamp ;;
  OK {| vin := vin;
        timestamp := iso;
        engine_temperature := inject_Z (Math_round (engineTemp r * 10)) / 10;
        oil_pressure := inject_Z (Math_round (oilPressure r * 10)) / 10;
        vibration_level := inject_Z (Math_round (vibrationLevel r * 100)) / 100;
        battery_voltage := inject_Z (Math_round (batteryVoltage r * 100)) / 100;
        speed := (40 + Z.rem (vinSeed + i) 30)%Z;
        mileage := (15000 + i * 10)%Z;
        health_score := Some (inject_Z (Math_round (healthScore * 10)) / 10);
        prediction_risk := inject_Z (Math_round (predictionRisk r * 1000)) / 1000;
        error_codes := errorCodes r;
        anomaly_detected := anomalyDetected r |}.

(** [for (let i = ...; i < count; i++) { ...; data.push({...}) }], with
    [remaining] iterations still to run from index [i]. *)
Fixpoint loop (now : Clock) (vin : value) (baseHealth : Q) (vinSeed : Z)
    (remaining : nat) (i : Z) (data : list TelemetrySample)
  : result (list TelemetrySample) :=
  match remaining with
  | O => OK data
  | S k =>
    sample <- iteration now vin baseHealth vinSeed i ;;
    loop now vin baseHealth vinSeed k (i + 1)%Z (data ++ [sample])
  end.

(** The body of [generateSampleTelemetry] (lines 160-236) with the bound of
    its loop as the parameter [count]. *)
Definition generateSeries (count : nat) (now : Clock) (vin : value)
  : result (list TelemetrySample) :=
  m <- call vin match_digits ;;
  let vinNumber := or_str m (str "001") in
  c1 <- or_lazy (strict_eq vinNumber (str "001"))
                (call vin (fun s => includes s (str "VIN001"))) ;;
  baseHealth <-
    (if c1 then OK 48.0
     else
       c2 <- or_lazy (strict_eq vinNumber (str "002"))
                     (call vin (fun s => includes s (str "VIN002"))) ;;
       OK (if c2 then 72.0 else 82.0)) ;;
  vinSeed <- call vin (fun s =>
               reduce (fun acc char => (acc + charCodeAt0 char)%Z) 0%Z
                      (split_chars s)) ;;
  data <- loop now vin baseHealth vinSeed count 0%Z [] ;;
  OK (rev data).

(** [generateSampleTelemetry(vin)]: the loop runs for [i < 20]. *)
Definition generateSampleTelemetry (now : Clock) (vin : value)
  : result (list TelemetrySample) :=
  generateSeries 20 now vin.

(** [const latestTelemetry = telemetry[0] || {}] (line 340): the record the
    status cards show, [None] for the empty object. *)
Definition latestTelemetry (telemetry : list TelemetrySample)
  : option TelemetrySample :=
  nth_error telemetry 0.


(** The comparator of the sort in [loadTelemetry] (lines 96-100).  A record
    carries its [timestamp], a non-empty string, so
    [a.timestamp || a.created_at || 0] is the timestamp. *)
Definition newestFirst (a b : TelemetrySample) : Z :=
  let dateA := time_of (timestamp a) in
  let dateB := time_of (timestamp b) in
  (dateB - dateA)%Z.

(** [loadTelemetry()], lines 86-117: the telemetry state it leaves.
    [selectedVehicle] is the selected vehicle, kept as its [vin], or [None];
    [getTelemetry] is the outcome of the awaited
    [vehicleService.getTelemetry(selectedVehicle.vin)], a response object
    with its optional [telemetry] array; [telemetry] is the state before. *)
Definition loadTelemetry (now : Clock) (selectedVehicle : option value)
    (getTelemetry : response (option (list TelemetrySample)))
    (telemetry : list TelemetrySample) : result (list TelemetrySample) :=
  match selectedVehicle with
  | None => OK telemetry
  | Some vin =>
    let on_error := generateSampleTelemetry now vin in
    match getTelemetry with
    | Rejected => on_error
    | Resolved response =>
      let telemetryData :=
        sort newestFirst (match response with Some t => t | None => [] end) in
      if (List.length telemetryData =? 0)%nat then
        match generateSampleTelemetry now vin with
        | OK sampleData => OK sampleData
        | Throw _ => on_error
        end
      else OK telemetryData
    end
  end.

(** The object of [setPrediction]. *)
Module Prediction.

Record t := {
  risk_score : float;
  recommendation : jsstring;
  predicted_failure_window : jsstring;
  health_score : Q
}.

End Prediction.

(** A property of [telemetry[0] || {}] in a condition: on the empty object
    the property is [undefined] and every comparison and test is false. *)
Definition holds (latestTelemetry : option TelemetrySample)
    (test : TelemetrySample -> bool) : bool :=
  match latestTelemetry with
  | Some x => test x
  | None => false
  end.

(** The [catch] block of [runPrediction], lines 280-325: the prediction the
    view makes up from the telemetry state when the prediction request fails
    or the state is empty. *)
Definition fallbackPrediction (telemetry : list TelemetrySample)
  : Prediction.t :=
  let latestTelemetry := nth_error telemetry 0 in
  let healthScore :=
    or_number (match latestTelemetry with
               | Some x => health_score x
               | None => None
               end) 75 in
  let riskScore :=
    if num_lt healthScore 40 then 0.75%float
    else if num_lt healthScore 60 then 0.6%float
    else if num_lt healthScore 70 then 0.4%float
    else if num_lt healthScore 80 then 0.25%float
    else 0.1%float in
  let riskScore :=
    if holds latestTelemetry (fun x => num_lt 100 (engine_temperature x))
    then (riskScore + 0.15)%float else riskScore in
  let riskScore :=
    if holds latestTelemetry (fun x => num_lt (oil_pressure x) 30)
    then (riskScore + 0.15)%float else riskScore in
  let riskScore :=
    if holds latestTelemetry (fun x => num_lt (battery_voltage x) 12.0)
    then (riskScore + 0.1)%float else riskScore in
  let riskScore :=
    if holds latestTelemetry anomaly_detected
    then (riskScore + 0.1)%float else riskScore in
  let riskScore := Math_min 1.0%float riskScore in
  {| Prediction.risk_score := riskScore;
     Prediction.recommendation :=
       if PrimFloat.ltb 0.6 riskScore
       then str "High risk detected. Immediate service recommended within 3-5 days."
       else if PrimFloat.ltb 0.4 riskScore
       then str "Moderate risk detected. Schedule service within 7-10 days."
       else if PrimFloat.ltb 0.3 riskScore
       then str "Low risk detected. Schedule preventive maintenance within 14-21 days."
       else str "Vehicle is in good condition. Regular maintenance recommended.";
     Prediction.predicted_failure_window :=
       if PrimFloat.ltb 0.6 riskScore then str "3-5 days"
       else if PrimFloat.ltb 0.4 riskScore then str "7-14 days"
       else if PrimFloat.ltb 0.3 riskScore then str "30-60 days"
       else str "No immediate risk detected";
     Prediction.health_score := healthScore |}.

End VehicleMonitoring.

(** ** frontend/src/pages/CustomerDashboard.jsx *)

Module CustomerDashboard.

(** The object [generateSampleTelemetryForHealth] returns. *)
Record HealthSample := {
  health_score : Q;
  timestamp : ISOString
}.

(** [generateSampleTelemetryForHealth(vin)], lines 86-110. *)
Definition generateSampleTelemetryForHealth (now : Clock) (vin : value)
  : result HealthSample :=
  if negb (truthy vin) then
    iso <- toISOString (Date_now now) ;;
    OK {| health_score := 75.0; timestamp := iso |}
  else
    m <- call vin match_digits ;;
    let vinNumber := or_str m (str "001") in
    c1 <- or_lazy (strict_eq vinNumber (str "001"))
                  (call vin (fun s => includes s (str "VIN001"))) ;;
    baseHealth <-
      (if c1 then OK 48.0
       else
         c2 <- or_lazy (strict_eq vinNumber (str "002"))
                       (call vin (fun s => includes s (str "VIN002"))) ;;
         OK (if c2 then 72.0 else 82.0)) ;;
    vinSeed <- call vin (fun s =>
                 reduce (fun acc char => (acc + charCodeAt0 char)%Z) 0%Z
                        (split_chars s)) ;;
    let variation := (Z.rem vinSeed 7 - 3)%Z in
    let healthScore := Qmax 30 (Qmin 100 (baseHealth + inject_Z variation)) in
    iso <- toISOString (Date_now now) ;;
    OK {| health_score := inject_Z (Math_round (healthScore * 10)) / 10;
          timestamp := iso |}.


(** The comparator of the two sorts of [loadCustomerData] (lines 121-125 and
    138-142), the same as the monitoring view's. *)
Definition newestFirst (a b : VehicleMonitoring.TelemetrySample) : Z :=
  let dateA := time_of (VehicleMonitoring.timestamp a) in
  let dateB := time_of (VehicleMonitoring.timestamp b) in
  (dateB - dateA)%Z.

(** [getHealthScoreForVehicle(vin, telemetry)], lines 113-129; [telemetry]
    is [None] when the argument is [undefined] or [null]. *)
Definition getHealthScoreForVehicle (now : Clock) (vin : value)
    (telemetry : option (list VehicleMonitoring.TelemetrySample)) : result Q :=
  match telemetry with
  | None =>
    sample <- generateSampleTelemetryForHealth now vin ;;
    OK (health_score sample)
  | Some telemetry =>
    if (List.length telemetry =? 0)%nat then
      sample <- generateSampleTelemetryForHealth now vin ;;
      OK (health_score sample)
    else
      let sorted := sort newestFirst telemetry in
      match nth_error sorted 0 with
      | None => Throw TypeError
      | Some latest =>
        or_number_lazy (VehicleMonitoring.health_score latest)
          (sample <- generateSampleTelemetryForHealth now vin ;;
           OK (health_score sample))
      end
  end.

(** An entry of [healthData] (lines 150-154, 159-163). *)
Module HealthData.

Record t := {
  health_score : Q;
  prediction_risk : Q;
  timestamp : ISOString
}.

End HealthData.

(** The body of the loop over [vehiclesList] (lines 133-164) for one vehicle:
    the entry assigned to [healthData[vehicle.vin]].  [getTelemetry] is the
    outcome of the awaited [vehicleService.getTelemetry(vehicle.vin)]. *)
Definition healthEntry (now : Clock) (vin : value)
    (getTelemetry : response (option (list VehicleMonitoring.TelemetrySample)))
  : result HealthData.t :=
  let on_error :=
    sample <- generateSampleTelemetryForHealth now vin ;;
    iso <- toISOString (Date_now now) ;;
    OK {| HealthData.health_score := health_score sample;
          HealthData.prediction_risk :=
            if num_lt (health_score sample) 50 then 0.65
            else if num_lt (health_score sample) 70 then 0.35 else 0.15;
          HealthData.timestamp := iso |} in
  match getTelemetry with
  | Rejected => on_error
  | Resolved telemetryResponse =>
    let telemetry :=
      sort newestFirst
           (match telemetryResponse with Some t => t | None => [] end) in
    let attempt :=
      healthScore <- getHealthScoreForVehicle now vin (Some telemetry) ;;
      let latest :=
        if (0 <? List.length telemetry)%nat then nth_error telemetry 0
        else None in
      stamp <- match latest with
               | Some x => OK (VehicleMonitoring.timestamp x)
               | None => toISOString (Date_now now)
               end ;;
      OK {| HealthData.health_score := healthScore;
            HealthData.prediction_risk :=
              or_number (option_map VehicleMonitoring.prediction_risk latest)
                        (if num_lt healthScore 50 then 0.65
                         else if num_lt healthScore 70 then 0.35 else 0.15);
            HealthData.timestamp := stamp |} in
    match attempt with
    | OK entry => OK entry
    | Throw _ => on_error
    end
  end.

(** The loop [for (const vehicle of vehiclesList)] (lines 131-165): each
    vehicle is its [vin] with the outcome of its telemetry request; the
    result is the object passed to [setVehicleHealth]. *)
Fixpoint healthDataLoop (now : Clock)
    (vehiclesList :
       list (value * response (option (list VehicleMonitoring.TelemetrySample))))
    (healthData : object HealthData.t) : result (object HealthData.t) :=
  match vehiclesList with
  | [] => OK healthData
  | (vin, getTelemetry) :: rest =>
    entry <- healthEntry now vin getTelemetry ;;
    healthDataLoop now rest (obj_set healthData (property_key vin) entry)
  end.

(** The health a vehicle card shows (lines 678-687):
    [vehicleHealth[vehicle.vin]?.health_score ?? (() => { ... })()]. *)
Definition cardHealth (vehicleHealth : object HealthData.t) (vin : value)
  : result Q :=
  match obj_get vehicleHealth (property_key vin) with
  | Some entry => OK (HealthData.health_score entry)
  | None =>
    m <- call vin match_digits ;;
    let vinNumber := or_str m (str "001") in
    c1 <- or_lazy (strict_eq vinNumber (str "001"))
                  (call vin (fun s => includes s (str "VIN001"))) ;;
    if c1 then OK 48.0
    else
      c2 <- or_lazy (strict_eq vinNumber (str "002"))
                    (call vin (fun s => includes s (str "VIN002"))) ;;
      OK (if c2 then 72.0 else 75.0)
  end.

(** [statusText] of a vehicle card (lines 690-694). *)
Definition statusText (health : Q) : jsstring :=
  if num_lt 80 health
  then str "Good condition - Regular maintenance recommended"
  else if num_lt 60 health
  then str "Fair condition - Schedule maintenance soon"
  else str "Poor condition - Service required immediately".

(** An appointment, with the properties the dashboard reads to filter. *)
Module Appointment.

Record t := {
  appointment_id : value;
  vin : value;
  status : value
}.

End Appointment.

(** [apt.status === 'scheduled' || apt.status === 'in_progress']. *)
Definition is_active (apt : Appointment.t) : bool :=
  same_value (Appointment.status apt) (Str (str "scheduled")) ||
  same_value (Appointment.status apt) (Str (str "in_progress")).

(** [activeAppointments] (lines 58-60). *)
Definition activeAppointments (allAppointments : list Appointment.t)
  : list Appointment.t :=
  filter is_active allAppointments.

(** [scheduledVins] (lines 78-82), the [Set] as the array it is built from. *)
Definition scheduledVins (allAppointments : list Appointment.t) : list value :=
  map Appointment.vin (filter is_active allAppointments).

(** A maintenance alert as the backend sends it. *)
Module Notification.

Record t := {
  notification_id : option jsstring;
  type : option jsstring;
  message : value;
  risk_level : option jsstring;
  created_at : option ISOString;
  action_required : option bool;
  vin : value;
  health_score : option Q;
  risk_score : option Q
}.

End Notification.

(** An alert as the dashboard keeps it (lines 189-199). *)
Module Alert.

Record t := {
  id : jsstring;
  type : jsstring;
  message : value;
  risk : jsstring;
  timestamp : Date;
  actionRequired : bool;
  vin : value;
  health_score : option Q;
  risk_score : option Q
}.

End Alert.

(** [formattedAlerts] (lines 180-199). *)
Definition formattedAlerts (scheduledVins : list value)
    (maintenanceAlerts : list Notification.t) : list Alert.t :=
  map_index
    (fun alert index =>
       {| Alert.id :=
            or_str (Notification.notification_id alert)
                   (str "alert-" ++ index_string index);
          Alert.type :=
            or_str (Notification.type alert) (str "maintenance_alert");
          Alert.message := Notification.message alert;
          Alert.risk := or_str (Notification.risk_level alert) (str "medium");
          Alert.timestamp :=
            match Notification.created_at alert with
            | Some iso => new_Date (time_of iso)
            | None => None
            end;
          Alert.actionRequired :=
            match Notification.action_required alert with
            | Some false => false
            | _ => true
            end;
          Alert.vin := Notification.vin alert;
          Alert.health_score := Notification.health_score alert;
          Alert.risk_score := Notification.risk_score alert |})
    (filter
       (fun alert =>
          if Set_has scheduledVins (Notification.vin alert) then false
          else
            let health := or_number (Notification.health_score alert) 100 in
            num_lt health 70)
       maintenanceAlerts).

(** [isHighRisk] and [isMediumRisk] of an alert card (lines 599-600); a
    missing [health_score] compares false. *)
Definition isHighRisk (alert : Alert.t) : bool :=
  strict_eq (Alert.risk alert) (str "high") ||
  match Alert.health_score alert with
  | Some h => num_lt h 50
  | None => false
  end.

Definition isMediumRisk (alert : Alert.t) : bool :=
  strict_eq (Alert.risk alert) (str "medium") ||
  match Alert.health_score alert with
  | Some h => negb (num_lt h 50) && num_lt h 60
  | None => false
  end.

End CustomerDashboard.

(** ** The operations as the specification words them

    Section 4.1 of the specification names the pieces that the source
    functions compute inline.  They are written here from its words, to be
    compared with the source functions above. *)

Module Spec.

Inductive HealthTier := low | medium | good.

(** "Extract the first run of digits from vin (fallback "001" if none
    found)." *)
Definition digitRun (vin : jsstring) : jsstring :=
  match match_digits vin with
  | Some d => d
  | None => str "001"
  end.

(** [healthTierAndBase(vin) -> (tier, baseHealth)]. *)
Definition healthTierAndBase (vin : jsstring) : HealthTier * Q :=
  if strict_eq (digitRun vin) (str "001") || includes vin (str "VIN001")
  then (low, 48.0)
  else if strict_eq (digitRun vin) (str "002") || includes vin (str "VIN002")
  then (medium, 72.0)
  else (good, 82.0).

Definition baseHealth (vin : jsstring) : Q := snd (healthTierAndBase vin).

(** [seed(vin)]: "Sum of character codes of every character in vin". *)
Fixpoint seed (vin : jsstring) : Z :=
  match vin with
  | [] => 0
  | c :: rest => Z.of_N c + seed rest
  end.

(** "variation = (seed(vin) mod 7) - 3". *)
Definition variation (vin : jsstring) : Z := seed vin mod 7 - 3.

(** "clamped = max(30, min(100, raw))". *)
Definition clamp (raw : Q) : Q := Qmax 30 (Qmin 100 raw).

(** "multiply by 10, round to nearest integer, divide by 10". *)
Definition round1 (x : Q) : Q := inject_Z (Math_round (x * 10)) / 10.

(** [currentHealthScore(vin)]. *)
Definition currentHealthScore (vin : jsstring) : Q :=
  round1 (clamp (baseHealth vin + inject_Z (variation vin))).

(** "localVariation_i = ((seed(vin) + i) mod 7) - 3" and the health score of
    sample [i] of the series. *)
Definition healthScoreAt (vin : jsstring) (i : Z) : Q :=
  round1 (clamp (baseHealth vin + inject_Z ((seed vin + i) mod 7 - 3))).

End Spec.

(** ** Auxiliary definitions for the statements *)

(** Two wall-clock readings used by the examples: 2023-11-14T22:13:20Z and
    one hour later. *)
Definition sample_clock : Clock :=
  {| getTime := 1700000000000; getTime_range := eq_refl |}.

Definition later_clock : Clock :=
  {| getTime := 1700003600000; getTime_range := eq_refl |}.

(** The empty VIN. *)
Definition empty_vin : jsstring := str EmptyString.

(** A backend telemetry record that lacks [health_score]. *)
Definition record_without_score : VehicleMonitoring.TelemetrySample :=
  {| VehicleMonitoring.vin := Str (str "VIN002");
     VehicleMonitoring.timestamp := ISO 1700000000000;
     VehicleMonitoring.engine_temperature := 90;
     VehicleMonitoring.oil_pressure := 35;
     VehicleMonitoring.vibration_level := 0.7;
     VehicleMonitoring.battery_voltage := 12.3;
     VehicleMonitoring.speed := 50;
     VehicleMonitoring.mileage := 15000;
     VehicleMonitoring.health_score := None;
     VehicleMonitoring.prediction_risk := 0.4;
     VehicleMonitoring.error_codes := [];
     VehicleMonitoring.anomaly_detected := false |}.

(** The loop indices [i, i+1, ..., i+n-1] in the order the loop visits them. *)
Fixpoint indices (i : Z) (n : nat) : list Z :=
  match n with
  | O => []
  | S k => i :: indices (i + 1) k
  end.

(** The time values of the timestamps of a series. *)
Definition times (data : list VehicleMonitoring.TelemetrySample) : list Z :=
  map (fun x => time_of (VehicleMonitoring.timestamp x)) data.

(** The health score a result carries, for comparing the two views. *)
Definition score_of (r : result CustomerDashboard.HealthSample) : result Q :=
  x <- r ;; OK (CustomerDashboard.health_score x).

(** The condition under which [getLatestHealthScore] computes the score from
    the VIN instead of reading it off the first telemetry record: both
    places where the source repeats the computation. *)
Definition synthesizes (telemetry : list VehicleMonitoring.TelemetrySample)
    (vin : value) : bool :=
  negb (truthy vin) ||
  match telemetry with
  | [] => true
  | latest :: _ =>
    match VehicleMonitoring.health_score latest with
    | Some _ => false
    | None => true
    end
  end.

(** What the monitoring view shows for a VIN once its telemetry state holds
    the generated series: the status cards and [getLatestHealthScore] read
    [telemetry[0]], which is the sample of loop index 19, the oldest; the
    score shown is that sample's, computed with the variation
    [((seed + 19) mod 7) - 3], and it is not the score computed from the VIN
    without telemetry. *)
Definition shows_oldest_sample (now : Clock) (s : jsstring) : Prop :=
  exists data oldest shown current,
    VehicleMonitoring.generateSampleTelemetry now (Str s) = OK data /\
    VehicleMonitoring.latestTelemetry data = Some oldest /\
    VehicleMonitoring.iteration now (Str s) (Spec.baseHealth s) (Spec.seed s) 19
    = OK oldest /\
    VehicleMonitoring.health_score oldest = Some shown /\
    VehicleMonitoring.getLatestHealthScore data (Str s) = OK shown /\
    shown == Spec.baseHealth s + inject_Z ((Spec.seed s + 19) mod 7 - 3) /\
    VehicleMonitoring.getLatestHealthScore [] (Str s) = OK current /\
    current == Spec.baseHealth s + inject_Z (Spec.seed s mod 7 - 3) /\
    ~ shown == current.

(** ** Auxiliary definitions for the rest of the two pages *)

(** A backend telemetry record for the examples, stamped [t] and carrying the
    health score [h]; its readings are those of a sound vehicle. *)
Definition backend_record (t : Z) (h : option Q)
  : VehicleMonitoring.TelemetrySample :=
  {| VehicleMonitoring.vin := Str (str "VIN002");
     VehicleMonitoring.timestamp := ISO t;
     VehicleMonitoring.engine_temperature := 90;
     VehicleMonitoring.oil_pressure := 35;
     VehicleMonitoring.vibration_level := 0.7;
     VehicleMonitoring.battery_voltage := 12.3;
     VehicleMonitoring.speed := 50;
     VehicleMonitoring.mileage := 15000;
     VehicleMonitoring.health_score := h;
     VehicleMonitoring.prediction_risk := 0.4;
     VehicleMonitoring.error_codes := [];
     VehicleMonitoring.anomaly_detected := false |}.

(** Three backend records, not in order of time. *)
Definition backend_records : list VehicleMonitoring.TelemetrySample :=
  [backend_record 1700000060000 (Some 64);
   backend_record 1700000180000 (Some 61);
   backend_record 1700000120000 (Some 63)].

(** A telemetry response without records: the request failed, or the
    response has no [telemetry] array or an empty one. *)
Definition no_records
    (getTelemetry : response (option (list VehicleMonitoring.TelemetrySample)))
  : bool :=
  match getTelemetry with
  | Rejected => true
  | Resolved None => true
  | Resolved (Some t) => (List.length t =? 0)%nat
  end.

(** None of the four readings that [runPrediction] penalises is out of
    range. *)
Definition unflagged (x : VehicleMonitoring.TelemetrySample) : bool :=
  negb (num_lt 100 (VehicleMonitoring.engine_temperature x)) &&
  negb (num_lt (VehicleMonitoring.oil_pressure x) 30) &&
  negb (num_lt (VehicleMonitoring.battery_voltage x) 12.0) &&
  negb (VehicleMonitoring.anomaly_detected x).

(** The first telemetry record gives no score that [x || d] keeps: there is
    no record, or its [health_score] is missing or [0]. *)
Definition no_usable_score
    (telemetry : list VehicleMonitoring.TelemetrySample) : bool :=
  match telemetry with
  | [] => true
  | latest :: _ =>
    match VehicleMonitoring.health_score latest with
    | None => true
    | Some h => Qeq_bool h 0
    end
  end.

(** The four recommendations of [runPrediction] with their failure windows. *)
Definition high_risk (p : VehicleMonitoring.Prediction.t) : Prop :=
  VehicleMonitoring.Prediction.recommendation p
  = str "High risk detected. Immediate service recommended within 3-5 days." /\
  VehicleMonitoring.Prediction.predicted_failure_window p = str "3-5 days".

Definition moderate_risk (p : VehicleMonitoring.Prediction.t) : Prop :=
  VehicleMonitoring.Prediction.recommendation p
  = str "Moderate risk detected. Schedule service within 7-10 days." /\
  VehicleMonitoring.Prediction.predicted_failure_window p = str "7-14 days".

Definition low_risk (p : VehicleMonitoring.Prediction.t) : Prop :=
  VehicleMonitoring.Prediction.recommendation p
  = str "Low risk detected. Schedule preventive maintenance within 14-21 days." /\
  VehicleMonitoring.Prediction.predicted_failure_window p = str "30-60 days".

Definition good_condition (p : VehicleMonitoring.Prediction.t) : Prop :=
  VehicleMonitoring.Prediction.recommendation p
  = str "Vehicle is in good condition. Regular maintenance recommended." /\
  VehicleMonitoring.Prediction.predicted_failure_window p
  = str "No immediate risk detected".

(** A backend record of a vehicle in good health whose battery is low and
    that reports an anomaly. *)
Definition low_battery_record : VehicleMonitoring.TelemetrySample :=
  {| VehicleMonitoring.vin := Str (str "VIN999");
     VehicleMonitoring.timestamp := ISO 1700000000000;
     VehicleMonitoring.engine_temperature := 88;
     VehicleMonitoring.oil_pressure := 40;
     VehicleMonitoring.vibration_level := 0.6;
     VehicleMonitoring.battery_voltage := 11.8;
     VehicleMonitoring.speed := 50;
     VehicleMonitoring.mileage := 15000;
     VehicleMonitoring.health_score := Some 85;
     VehicleMonitoring.prediction_risk := 0.2;
     VehicleMonitoring.error_codes := [];
     VehicleMonitoring.anomaly_detected := true |}.

(** Appointments and backend alerts for the examples: "VIN001" has a
    scheduled appointment, "VIN002" a completed one; there is an alert for
    each and one without a score. *)
Definition sample_appointments : list CustomerDashboard.Appointment.t :=
  [ {| CustomerDashboard.Appointment.appointment_id := Str (str "APT_1");
       CustomerDashboard.Appointment.vin := Str (str "VIN001");
       CustomerDashboard.Appointment.status := Str (str "scheduled") |};
    {| CustomerDashboard.Appointment.appointment_id := Str (str "APT_2");
       CustomerDashboard.Appointment.vin := Str (str "VIN002");
       CustomerDashboard.Appointment.status := Str (str "completed") |} ].

Definition sample_notification (vin : value) (health : option Q)
  : CustomerDashboard.Notification.t :=
  {| CustomerDashboard.Notification.notification_id := None;
     CustomerDashboard.Notification.type := None;
     CustomerDashboard.Notification.message := Str (str "Service due");
     CustomerDashboard.Notification.risk_level := None;
     CustomerDashboard.Notification.created_at := Some (ISO 1700000000000);
     CustomerDashboard.Notification.action_required := None;
     CustomerDashboard.Notification.vin := vin;
     CustomerDashboard.Notification.health_score := health;
     CustomerDashboard.Notification.risk_score := None |}.

Definition sample_notifications : list CustomerDashboard.Notification.t :=
  [ sample_notification (Str (str "VIN001")) (Some 48);
    sample_notification (Str (str "VIN003")) None;
    sample_notification (Str (str "VIN002")) (Some 65) ].

(** The alert the dashboard keeps of the sample notifications. *)
Definition sample_alert : CustomerDashboard.Alert.t :=
  {| CustomerDashboard.Alert.id := str "alert-0";
     CustomerDashboard.Alert.type := str "maintenance_alert";
     CustomerDashboard.Alert.message := Str (str "Service due");
     CustomerDashboard.Alert.risk := str "medium";
     CustomerDashboard.Alert.timestamp := Some 1700000000000%Z;
     CustomerDashboard.Alert.actionRequired := true;
     CustomerDashboard.Alert.vin := Str (str "VIN002");
     CustomerDashboard.Alert.health_score := Some 65;
     CustomerDashboard.Alert.risk_score := None |}.

(** [x] lies between [lo] and [hi]. *)
Definition within (lo hi x : Q) : Prop := lo <= x /\ x <= hi.

(** The five readings of a sample lie in the given ranges: temperature, oil
    pressure, battery voltage, vibration and risk. *)
Definition readings_within (x : VehicleMonitoring.TelemetrySample)
    (t1 t2 o1 o2 b1 b2 v1 v2 r1 r2 : Q) : Prop :=
  within t1 t2 (VehicleMonitoring.engine_temperature x) /\
  within o1 o2 (VehicleMonitoring.oil_pressure x) /\
  within b1 b2 (VehicleMonitoring.battery_voltage x) /\
  within v1 v2 (VehicleMonitoring.vibration_level x) /\
  within r1 r2 (VehicleMonitoring.prediction_risk x).

(** [a] is at least as new as [b]. *)
Definition not_older (a b : VehicleMonitoring.TelemetrySample) : Prop :=
  (time_of (VehicleMonitoring.timestamp b)
   <= time_of (VehicleMonitoring.timestamp a))%Z.

(** * Properties *)

Import VehicleMonitoring.

(** ** Seeds, remainders and base values *)

Lemma seed_nonneg (s : jsstring) : (0 <= Spec.seed s)%Z.
Proof.
  induction s as [|c s IH]; simpl; lia.
Qed.

Lemma reduce_seed_acc (s : jsstring) (acc : Z) :
  fold_left (fun acc char => (acc + charCodeAt0 char)%Z) s acc
  = (acc + Spec.seed s)%Z.
Proof.
  revert acc; induction s as [|c s IH]; intros acc; simpl.
  - lia.
  - rewrite IH. unfold charCodeAt0. lia.
Qed.

(** The [split('').reduce(...)] of the source sums the code units. *)
Lemma reduce_seed (s : jsstring) :
  reduce (fun acc char => (acc + charCodeAt0 char)%Z) 0%Z (split_chars s)
  = Spec.seed s.
Proof.
  unfold reduce, split_chars. rewrite reduce_seed_acc. lia.
Qed.

Lemma or_num_seed (s : jsstring) : or_num (Some (Spec.seed s)) 0 = Spec.seed s.
Proof.
  unfold or_num. destruct (Spec.seed s); reflexivity.
Qed.

Lemma rem7_cases (z : Z) :
  (0 <= z)%Z ->
  Z.rem z 7 = (z mod 7)%Z /\
  (z mod 7 = 0 \/ z mod 7 = 1 \/ z mod 7 = 2 \/ z mod 7 = 3 \/
   z mod 7 = 4 \/ z mod 7 = 5 \/ z mod 7 = 6)%Z.
Proof.
  intros Hz. split.
  - apply Z.rem_mod_nonneg; lia.
  - pose proof (Z.mod_pos_bound z 7 ltac:(lia)). lia.
Qed.

Lemma baseHealth_cases (s : jsstring) :
  Spec.baseHealth s = 48.0 \/ Spec.baseHealth s = 72.0 \/ Spec.baseHealth s = 82.0.
Proof.
  unfold Spec.baseHealth, Spec.healthTierAndBase.
  destruct (_ || _); [now left|].
  destruct (_ || _); [right; now left | right; now right].
Qed.

(** [x || d] keeps a found digit run, which is never empty. *)
Lemma or_str_match (s : jsstring) :
  or_str (match_digits s) (str "001") = Spec.digitRun s.
Proof.
  unfold Spec.digitRun.
  induction s as [|c s IH]; simpl; [reflexivity|].
  destruct (is_digit c); [reflexivity | exact IH].
Qed.

(** ** The source functions against the specification's operations *)

(** The expression that [getLatestHealthScore] evaluates, in both of its
    copies, when [vin] is a string. *)
Lemma fallback_expression (s : jsstring) :
  (let vinNumber :=
     or_str (opt_index (call_opt (Str s) match_digits)) (str "001") in
   let baseHealth :=
     if or_cond (strict_eq vinNumber (str "001"))
                (call_opt (Str s) (fun s => includes s (str "VIN001")))
     then 48.0
     else if or_cond (strict_eq vinNumber (str "002"))
                     (call_opt (Str s) (fun s => includes s (str "VIN002")))
     then 72.0
     else 82.0 in
   let vinSeed :=
     or_num (call_opt (Str s) (fun s =>
               reduce (fun acc char => (acc + charCodeAt0 char)%Z) 0%Z
                      (split_chars s))) 0 in
   let variation := (Z.rem vinSeed 7 - 3)%Z in
   let healthScore := Qmax 30 (Qmin 100 (baseHealth + inject_Z variation)) in
   inject_Z (Math_round (healthScore * 10)) / 10)
  = Spec.currentHealthScore s.
Proof.
  cbv zeta. unfold call_opt, or_cond.
  rewrite reduce_seed, or_num_seed.
  replace (opt_index (Some (match_digits s))) with (match_digits s)
    by (unfold opt_index; destruct (match_digits s); reflexivity).
  rewrite or_str_match.
  destruct (rem7_cases _ (seed_nonneg s)) as [-> _].
  unfold Spec.currentHealthScore, Spec.round1, Spec.clamp, Spec.variation,
    Spec.baseHealth, Spec.healthTierAndBase.
  destruct (strict_eq (Spec.digitRun s) (str "001") || includes s (str "VIN001"));
    [reflexivity|].
  destruct (strict_eq (Spec.digitRun s) (str "002") || includes s (str "VIN002"));
    reflexivity.
Qed.

(** Whenever [getLatestHealthScore] computes the score of a string VIN from
    the VIN, it returns the specification's [currentHealthScore]. *)
Lemma getLatestHealthScore_synthesized (telemetry : list TelemetrySample)
    (s : jsstring) :
  synthesizes telemetry (Str s) = true ->
  getLatestHealthScore telemetry (Str s) = OK (Spec.currentHealthScore s).
Proof.
  intros H. unfold getLatestHealthScore.
  destruct (negb (truthy (Str s)) || (List.length telemetry =? 0)%nat) eqn:G.
  - f_equal. apply fallback_expression.
  - apply orb_false_iff in G as [G1 G2].
    unfold synthesizes in H. rewrite G1 in H. simpl in H.
    destruct telemetry as [|latest rest]; [discriminate G2|].
    simpl. destruct (health_score latest); [discriminate H|].
    f_equal. apply fallback_expression.
Qed.

Lemma synthesizes_nil (vin : value) : synthesizes [] vin = true.
Proof. unfold synthesizes. apply orb_true_r. Qed.

(** With a telemetry record that carries a score, and a truthy VIN, the
    score is read off the first record. *)
Lemma getLatestHealthScore_first (latest : TelemetrySample)
    (rest : list TelemetrySample) (vin : value) (h : Q) :
  truthy vin = true ->
  health_score latest = Some h ->
  getLatestHealthScore (latest :: rest) vin = OK h.
Proof.
  intros Hv Hh. unfold getLatestHealthScore.
  rewrite Hv. simpl. rewrite Hh. reflexivity.
Qed.

(** The customer dashboard on a non-empty string. *)
Lemma generateSampleTelemetryForHealth_nonempty (now : Clock) (s : jsstring) :
  s <> [] ->
  CustomerDashboard.generateSampleTelemetryForHealth now (Str s)
  = OK {| CustomerDashboard.health_score := Spec.currentHealthScore s;
          CustomerDashboard.timestamp := ISO (getTime now) |}.
Proof.
  intros Hs. unfold CustomerDashboard.generateSampleTelemetryForHealth.
  destruct s as [|c s']; [contradiction|].
  set (s := c :: s') in *.
  change (truthy (Str s)) with true. cbv iota beta. simpl negb. cbv iota.
  unfold call, bind, or_lazy, Date_now, toISOString.
  rewrite reduce_seed, or_str_match.
  destruct (rem7_cases _ (seed_nonneg s)) as [-> _].
  unfold Spec.currentHealthScore, Spec.round1, Spec.clamp, Spec.variation,
    Spec.baseHealth, Spec.healthTierAndBase.
  destruct (strict_eq (Spec.digitRun s) (str "001")); cbn [orb].
  - reflexivity.
  - destruct (includes s (str "VIN001")); [reflexivity|].
    destruct (strict_eq (Spec.digitRun s) (str "002")); cbn [orb].
    + reflexivity.
    + destruct (includes s (str "VIN002")); reflexivity.
Qed.

(** ** The values a health score takes *)

Ltac q_decide :=
  vm_compute; first [reflexivity | discriminate | (intro; discriminate)].

(** Clamping and rounding leave [base + variation] as it is: it is an
    integer between 45 and 85. *)
Lemma round_clamp_exact (b : Q) (z : Z) :
  b = 48.0 \/ b = 72.0 \/ b = 82.0 ->
  (0 <= z <= 6)%Z ->
  Spec.clamp (b + inject_Z (z - 3)) == b + inject_Z (z - 3) /\
  Spec.round1 (Spec.clamp (b + inject_Z (z - 3))) == b + inject_Z (z - 3) /\
  45 <= b + inject_Z (z - 3) <= 85.
Proof.
  intros Hb Hz.
  assert (Hc : (z = 0 \/ z = 1 \/ z = 2 \/ z = 3 \/ z = 4 \/ z = 5 \/ z = 6)%Z)
    by lia.
  destruct Hb as [-> | [-> | ->]];
    destruct Hc as [-> | [-> | [-> | [-> | [-> | [-> | ->]]]]]];
    repeat split; q_decide.
Qed.

Lemma healthScoreAt_exact (s : jsstring) (i : Z) :
  (0 <= i)%Z ->
  Spec.healthScoreAt s i
  == Spec.baseHealth s + inject_Z ((Spec.seed s + i) mod 7 - 3).
Proof.
  intros Hi. unfold Spec.healthScoreAt.
  pose proof (seed_nonneg s).
  apply round_clamp_exact.
  - apply baseHealth_cases.
  - pose proof (Z.mod_pos_bound (Spec.seed s + i) 7 ltac:(lia)). lia.
Qed.

Lemma healthScoreAt_bounds (s : jsstring) (i : Z) :
  (0 <= i)%Z -> 45 <= Spec.healthScoreAt s i <= 85.
Proof.
  intros Hi. rewrite (healthScoreAt_exact s i Hi).
  pose proof (seed_nonneg s).
  apply round_clamp_exact.
  - apply baseHealth_cases.
  - pose proof (Z.mod_pos_bound (Spec.seed s + i) 7 ltac:(lia)). lia.
Qed.

Lemma currentHealthScore_at_0 (s : jsstring) :
  Spec.currentHealthScore s = Spec.healthScoreAt s 0.
Proof.
  unfold Spec.currentHealthScore, Spec.healthScoreAt, Spec.variation.
  now rewrite Z.add_0_r.
Qed.

Lemma currentHealthScore_bounds (s : jsstring) :
  45 <= Spec.currentHealthScore s <= 85.
Proof.
  rewrite currentHealthScore_at_0. apply healthScoreAt_bounds. lia.
Qed.

(** ** One iteration of the loop and the loop *)

Lemma iteration_inv (now : Clock) (vin : value) (b : Q) (sd i : Z)
    (x : TelemetrySample) :
  iteration now vin b sd i = OK x ->
  let hs := Spec.clamp (b + inject_Z (Z.rem (sd + i) 7 - 3)) in
  time_of (timestamp x) = (getTime now - i * 60000)%Z /\
  health_score x = Some (Spec.round1 hs) /\
  error_codes x = (if num_lt hs 50 then [str "P0300"; str "P0171"] else []) /\
  anomaly_detected x
  = (if num_lt hs 50 then true
     else if num_lt hs 70 then (Z.rem (sd + i) 3 =? 0)%Z else false).
Proof.
  unfold iteration. cbv zeta.
  destruct (new_Date (getTime now - i * 60000)) as [t|] eqn:D;
    [|discriminate].
  unfold new_Date in D.
  destruct (_ && _) in D; [|discriminate]. injection D as <-.
  cbn [toISOString bind]. intros [= <-].
  cbn [time_of timestamp health_score error_codes anomaly_detected].
  fold (Spec.clamp (b + inject_Z (Z.rem (sd + i) 7 - 3))).
  destruct (num_lt (Spec.clamp (b + inject_Z (Z.rem (sd + i) 7 - 3))) 50);
    [repeat split|].
  destruct (num_lt (Spec.clamp (b + inject_Z (Z.rem (sd + i) 7 - 3))) 70);
    repeat split.
Qed.

(** The timestamp of sample [i] is a valid date for every index up to
    144 * 10^9: the clock reads a time after the epoch. *)
Lemma iteration_total (now : Clock) (vin : value) (b : Q) (sd i : Z) :
  (0 <= i <= 144000000000)%Z ->
  exists x, iteration now vin b sd i = OK x.
Proof.
  intros Hi. unfold iteration. cbv zeta.
  pose proof (getTime_range now) as R.
  apply andb_true_iff in R as [R1 R2].
  apply Z.leb_le in R1, R2. unfold maxTime in *.
  unfold new_Date.
  replace ((- maxTime <=? getTime now - i * 60000)%Z
           && (getTime now - i * 60000 <=? maxTime)%Z) with true.
  - cbn [toISOString bind]. eexists. reflexivity.
  - symmetry. apply andb_true_iff. unfold maxTime.
    split; apply Z.leb_le; lia.
Qed.

Lemma indices_length (i : Z) (n : nat) : List.length (indices i n) = n.
Proof.
  revert i; induction n as [|n IH]; intros i; simpl; [|rewrite IH]; reflexivity.
Qed.

Lemma indices_nth (n : nat) (i : Z) (k : nat) :
  (k < n)%nat -> nth_error (indices i n) k = Some (i + Z.of_nat k)%Z.
Proof.
  revert i k; induction n as [|n IH]; intros i k Hk; [lia|].
  destruct k as [|k]; simpl.
  - f_equal. lia.
  - rewrite IH by lia. f_equal. lia.
Qed.

Lemma indices_range (n : nat) (i k : Z) :
  In k (indices i n) -> (i <= k < i + Z.of_nat n)%Z.
Proof.
  revert i; induction n as [|n IH]; intros i; simpl; [tauto|].
  intros [<- | H]; [lia|]. apply IH in H. lia.
Qed.

(** What the loop returns: the samples of the indices it visits, appended in
    that order. *)
Lemma loop_inv (now : Clock) (vin : value) (b : Q) (sd : Z) (n : nat) :
  forall (i : Z) (data out : list TelemetrySample),
  loop now vin b sd n i data = OK out ->
  exists new,
    out = data ++ new /\
    Forall2 (fun k x => iteration now vin b sd k = OK x) (indices i n) new.
Proof.
  induction n as [|n IH]; intros i data out; simpl.
  - intros [= <-]. exists []. rewrite app_nil_r. split; constructor.
  - destruct (iteration now vin b sd i) as [x|e] eqn:E; cbn [bind];
      [|discriminate].
    intros H. apply IH in H as (new & -> & F).
    exists (x :: new). rewrite <- app_assoc. split; [reflexivity|].
    constructor; assumption.
Qed.

Lemma loop_total (now : Clock) (vin : value) (b : Q) (sd : Z) (n : nat) :
  forall (i : Z) (data : list TelemetrySample),
  (0 <= i)%Z -> (i + Z.of_nat n <= 144000000001)%Z ->
  exists out, loop now vin b sd n i data = OK out.
Proof.
  induction n as [|n IH]; intros i data Hi Hn; simpl.
  - eexists; reflexivity.
  - destruct (iteration_total now vin b sd i) as [x ->]; [lia|].
    cbn [bind]. apply IH; lia.
Qed.

(** On a string, [generateSampleTelemetry] runs its loop with the
    specification's base value and seed. *)
Lemma generateSeries_string (n : nat) (now : Clock) (s : jsstring) :
  generateSeries n now (Str s)
  = (data <- loop now (Str s) (Spec.baseHealth s) (Spec.seed s) n 0%Z [] ;;
     OK (rev data)).
Proof.
  unfold generateSeries, call. cbn [bind].
  rewrite reduce_seed, or_str_match.
  unfold Spec.baseHealth, Spec.healthTierAndBase, or_lazy.
  destruct (strict_eq (Spec.digitRun s) (str "001")); cbn [orb bind snd].
  - reflexivity.
  - destruct (includes s (str "VIN001")); cbn [bind snd]; [reflexivity|].
    destruct (strict_eq (Spec.digitRun s) (str "002")); cbn [orb bind snd].
    + reflexivity.
    + destruct (includes s (str "VIN002")); reflexivity.
Qed.

Lemma generateSeries_inv (n : nat) (now : Clock) (s : jsstring)
    (out : list TelemetrySample) :
  generateSeries n now (Str s) = OK out ->
  exists new,
    out = rev new /\
    Forall2 (fun k x =>
               iteration now (Str s) (Spec.baseHealth s) (Spec.seed s) k = OK x)
            (indices 0 n) new.
Proof.
  rewrite generateSeries_string.
  destruct (loop now (Str s) (Spec.baseHealth s) (Spec.seed s) n 0 [])
    as [data|e] eqn:L; cbn [bind]; [|discriminate].
  intros [= <-]. apply loop_inv in L as (new & -> & F).
  exists new. split; [reflexivity | exact F].
Qed.

Lemma generateSeries_total (n : nat) (now : Clock) (s : jsstring) :
  (Z.of_nat n <= 144000000001)%Z ->
  exists out, generateSeries n now (Str s) = OK out.
Proof.
  intros Hn. rewrite generateSeries_string.
  destruct (loop_total now (Str s) (Spec.baseHealth s) (Spec.seed s) n
              0%Z [] ltac:(lia) ltac:(lia)) as [data ->].
  cbn [bind]. eexists; reflexivity.
Qed.

(** Two facts on [Forall2] for reading a series sample by sample. *)
Lemma Forall2_in_right {A B : Type} (R : A -> B -> Prop) (l : list A)
    (l' : list B) (y : B) :
  Forall2 R l l' -> In y l' -> exists x, In x l /\ R x y.
Proof.
  induction 1 as [|a b l l' Hab F IH]; simpl; [contradiction|].
  intros [<- | Hy].
  - exists a. split; [now left | exact Hab].
  - destruct (IH Hy) as (x & Hx & Hxy). exists x. split; [now right | exact Hxy].
Qed.

Lemma Forall2_nth_error {A B : Type} (R : A -> B -> Prop) (l : list A)
    (l' : list B) :
  Forall2 R l l' ->
  forall (j : nat) (a : A) (b : B),
  nth_error l j = Some a -> nth_error l' j = Some b -> R a b.
Proof.
  induction 1 as [|a0 b0 l l' Hab F IH]; intros j a b Ha Hb.
  - destruct j; discriminate.
  - destruct j as [|j]; simpl in Ha, Hb.
    + injection Ha as <-. injection Hb as <-. exact Hab.
    + eapply IH; eassumption.
Qed.

(** Every sample of a generated series comes from one iteration, at an index
    below the count. *)
Lemma series_sample (n : nat) (now : Clock) (s : jsstring)
    (out : list TelemetrySample) (x : TelemetrySample) :
  generateSeries n now (Str s) = OK out ->
  In x out ->
  exists i, (0 <= i < Z.of_nat n)%Z /\
    iteration now (Str s) (Spec.baseHealth s) (Spec.seed s) i = OK x.
Proof.
  intros G Hx. apply generateSeries_inv in G as (new & -> & F).
  apply in_rev in Hx.
  destruct (Forall2_in_right _ _ _ x F Hx) as (i & Hi & Hit).
  exists i. split; [|exact Hit].
  apply indices_range in Hi. lia.
Qed.

(** The sample at position [k] of the returned array is the one of loop index
    [n - 1 - k]: the array is reversed. *)
Lemma series_nth (n : nat) (now : Clock) (s : jsstring)
    (out : list TelemetrySample) (k : nat) :
  generateSeries n now (Str s) = OK out ->
  (k < n)%nat ->
  exists x,
    nth_error out k = Some x /\
    iteration now (Str s) (Spec.baseHealth s) (Spec.seed s)
              (Z.of_nat (n - 1 - k)) = OK x.
Proof.
  intros G Hk. apply generateSeries_inv in G as (new & -> & F).
  pose proof (Forall2_length F) as L. rewrite indices_length in L.
  destruct (nth_error new (n - 1 - k)) as [x|] eqn:E;
    [|apply nth_error_None in E; lia].
  exists x. split.
  - rewrite nth_error_rev.
    replace (k <? List.length new)%nat with true
      by (symmetry; apply Nat.ltb_lt; lia).
    replace (List.length new - S k)%nat with (n - 1 - k)%nat by lia. exact E.
  - eapply (Forall2_nth_error _ _ _ F); [|exact E].
    rewrite indices_nth by lia. f_equal.
Qed.

Lemma series_length (n : nat) (now : Clock) (s : jsstring)
    (out : list TelemetrySample) :
  generateSeries n now (Str s) = OK out -> List.length out = n.
Proof.
  intros G. apply generateSeries_inv in G as (new & -> & F).
  rewrite length_rev, <- (Forall2_length F). apply indices_length.
Qed.

(** ** The bands of a sample *)

Lemma num_lt_spec (x y : Q) : num_lt x y = true <-> x < y.
Proof.
  unfold num_lt. rewrite negb_true_iff. split.
  - intros H. apply Qnot_le_lt. intros L.
    apply Qle_bool_iff in L. congruence.
  - intros H. destruct (Qle_bool y x) eqn:E; [|reflexivity].
    apply Qle_bool_iff in E. exfalso. exact (Qlt_not_le _ _ H E).
Qed.

Ltac band_case H :=
  first
    [ vm_compute; reflexivity
    | vm_compute; split; reflexivity
    | exfalso; vm_compute in H; first [discriminate H | apply H; reflexivity] ].

(** The comparisons of the unrounded [healthScore] that pick the branch agree
    with the comparisons of the rounded [health_score] the sample carries. *)
Lemma band_of_score (b : Q) (z : Z) :
  b = 48.0 \/ b = 72.0 \/ b = 82.0 ->
  (0 <= z <= 6)%Z ->
  let hs := Spec.clamp (b + inject_Z (z - 3)) in
  (Spec.round1 hs < 50 -> num_lt hs 50 = true) /\
  (70 <= Spec.round1 hs -> num_lt hs 50 = false /\ num_lt hs 70 = false).
Proof.
  intros Hb Hz.
  assert (Hc : (z = 0 \/ z = 1 \/ z = 2 \/ z = 3 \/ z = 4 \/ z = 5 \/ z = 6)%Z)
    by lia.
  destruct Hb as [-> | [-> | ->]];
    destruct Hc as [-> | [-> | [-> | [-> | [-> | [-> | ->]]]]]];
    cbv zeta; split; intros H; band_case H.
Qed.

(** The fields of the sample of loop index [i] of a string VIN that the
    claims speak of. *)
Lemma sample_fields (now : Clock) (s : jsstring) (i : Z) (x : TelemetrySample) :
  (0 <= i)%Z ->
  iteration now (Str s) (Spec.baseHealth s) (Spec.seed s) i = OK x ->
  time_of (timestamp x) = (getTime now - i * 60000)%Z /\
  health_score x = Some (Spec.healthScoreAt s i) /\
  (Spec.healthScoreAt s i < 50 ->
   anomaly_detected x = true /\ error_codes x = [str "P0300"; str "P0171"]) /\
  (70 <= Spec.healthScoreAt s i ->
   anomaly_detected x = false /\ error_codes x = []).
Proof.
  intros Hi E. apply iteration_inv in E. cbv zeta in E.
  pose proof (seed_nonneg s) as Hs.
  destruct (rem7_cases (Spec.seed s + i) ltac:(lia)) as [R C].
  rewrite R in E. destruct E as (T & H & EC & AD).
  fold (Spec.healthScoreAt s i) in H.
  destruct (band_of_score (Spec.baseHealth s) ((Spec.seed s + i) mod 7)
              (baseHealth_cases s) ltac:(lia)) as [Lo Hi'].
  cbv zeta in Lo, Hi'. fold (Spec.healthScoreAt s i) in Lo, Hi'.
  split; [exact T|]. split; [exact H|]. split.
  - intros Low. rewrite AD, EC, (Lo Low). split; reflexivity.
  - intros High. destruct (Hi' High) as [A B].
    rewrite AD, EC, A, B. split; reflexivity.
Qed.

(** ** The two views against each other *)

(** On every non-empty VIN the customer dashboard computes the score that the
    monitoring view computes without telemetry. *)
Lemma views_agree_on_nonempty_vin (now : Clock) (s : jsstring) :
  s <> [] ->
  score_of (CustomerDashboard.generateSampleTelemetryForHealth now (Str s))
  = getLatestHealthScore [] (Str s).
Proof.
  intros Hs.
  rewrite (generateSampleTelemetryForHealth_nonempty now s Hs).
  rewrite getLatestHealthScore_synthesized by apply synthesizes_nil.
  reflexivity.
Qed.

(** The customer dashboard answers a falsy VIN with the constant 75. *)
Lemma generateSampleTelemetryForHealth_empty (now : Clock) :
  CustomerDashboard.generateSampleTelemetryForHealth now (Str [])
  = OK {| CustomerDashboard.health_score := 75.0;
          CustomerDashboard.timestamp := ISO (getTime now) |}.
Proof. reflexivity. Qed.

(** C1 (cross-view consistency), evaluated where it breaks.  For the empty
    VIN the monitoring view, without telemetry, runs the synthesis with the
    fallback digit run "001" and seed 0 and shows 45, while the customer
    dashboard leaves through its [!vin] guard and shows 75: the two copies
    are not extensionally equal, although each is commented as matching the
    other exactly. *)
Theorem C1_views_differ_on_empty_vin :
  forall now : Clock,
  exists monitoring dashboard : Q,
    getLatestHealthScore [] (Str empty_vin) = OK monitoring /\
    score_of (CustomerDashboard.generateSampleTelemetryForHealth now (Str empty_vin))
    = OK dashboard /\
    monitoring == 45 /\ dashboard == 75 /\ ~ monitoring == dashboard.
Proof.
  intros now. eexists. eexists.
  split; [vm_compute; reflexivity|].
  split; [reflexivity|].
  repeat split; q_decide.
Qed.

(** C2 (determinism).  The score computed from a VIN string does not depend
    on the clock or on the telemetry state: any two evaluations of the
    monitoring view's computation, in any two telemetry states in which it is
    the VIN that is scored, return the same value, and any two evaluations of
    the dashboard's function, at any two clock readings, carry the same
    score. *)
Theorem C2_score_is_a_function_of_the_vin (s : jsstring)
    (telemetry1 telemetry2 : list TelemetrySample) (now1 now2 : Clock) :
  synthesizes telemetry1 (Str s) = true ->
  synthesizes telemetry2 (Str s) = true ->
  (exists h,
     getLatestHealthScore telemetry1 (Str s) = OK h /\
     getLatestHealthScore telemetry2 (Str s) = OK h) /\
  (exists d,
     score_of (CustomerDashboard.generateSampleTelemetryForHealth now1 (Str s))
     = OK d /\
     score_of (CustomerDashboard.generateSampleTelemetryForHealth now2 (Str s))
     = OK d).
Proof.
  intros H1 H2. split.
  - exists (Spec.currentHealthScore s).
    split; apply getLatestHealthScore_synthesized; assumption.
  - destruct s as [|c s'].
    + exists 75.0. split; reflexivity.
    + exists (Spec.currentHealthScore (c :: s')).
      split; rewrite generateSampleTelemetryForHealth_nonempty by discriminate;
        reflexivity.
Qed.

Lemma C2_score_is_a_function_of_the_vin_witness :
  synthesizes [] (Str (str "VIN002")) = true /\
  synthesizes [record_without_score] (Str (str "VIN002")) = true /\
  (exists h,
     getLatestHealthScore [] (Str (str "VIN002")) = OK h /\
     getLatestHealthScore [record_without_score] (Str (str "VIN002")) = OK h) /\
  (exists d,
     score_of (CustomerDashboard.generateSampleTelemetryForHealth
                 sample_clock (Str (str "VIN002"))) = OK d /\
     score_of (CustomerDashboard.generateSampleTelemetryForHealth
                 later_clock (Str (str "VIN002"))) = OK d).
Proof.
  split; [reflexivity|]. split; [reflexivity|].
  apply (C2_score_is_a_function_of_the_vin (str "VIN002")
           [] [record_without_score] sample_clock later_clock); reflexivity.
Defined.

(** ** The score and the series *)

(** C3 (score/series agreement).  For every VIN string and every count
    [n >= 1], the series is generated (for every count whose oldest timestamp
    is still a valid date, 20 among them), and whenever it is, its last
    element is the sample of loop index 0, stamped [now]; no sample has a
    later timestamp, and its [health_score] is the score that
    [getLatestHealthScore] computes for the VIN without telemetry. *)
Theorem C3_newest_sample_has_current_score (n : nat) (now : Clock)
    (s : jsstring) :
  (1 <= n)%nat ->
  ((Z.of_nat n <= 144000000001)%Z ->
   exists data, generateSeries n now (Str s) = OK data) /\
  (forall data,
     generateSeries n now (Str s) = OK data ->
     exists newest h,
       List.length data = n /\
       nth_error data (n - 1) = Some newest /\
       iteration now (Str s) (Spec.baseHealth s) (Spec.seed s) 0 = OK newest /\
       time_of (timestamp newest) = getTime now /\
       (forall x, In x data ->
          (time_of (timestamp x) <= time_of (timestamp newest))%Z) /\
       health_score newest = Some h /\
       getLatestHealthScore [] (Str s) = OK h).
Proof.
  intros Hn. split; [apply generateSeries_total|].
  intros data G.
  destruct (series_nth n now s data (n - 1) G ltac:(lia))
    as (newest & Hnth & Hit).
  replace (n - 1 - (n - 1))%nat with 0%nat in Hit by lia.
  change (Z.of_nat 0) with 0%Z in Hit.
  destruct (sample_fields now s 0 newest ltac:(lia) Hit) as (T & H & _).
  exists newest, (Spec.healthScoreAt s 0).
  split; [exact (series_length n now s data G)|].
  split; [exact Hnth|].
  split; [exact Hit|].
  split; [rewrite T; lia|].
  split.
  - intros x Hx.
    destruct (series_sample n now s data x G Hx) as (i & Hi & Hxi).
    destruct (sample_fields now s i x ltac:(lia) Hxi) as (Tx & _).
    rewrite T, Tx. lia.
  - split; [exact H|].
    rewrite getLatestHealthScore_synthesized by apply synthesizes_nil.
    now rewrite currentHealthScore_at_0.
Qed.

Lemma C3_newest_sample_has_current_score_witness :
  (1 <= 20)%nat /\
  ((Z.of_nat 20 <= 144000000001)%Z ->
   exists data, generateSampleTelemetry sample_clock (Str (str "VIN001")) = OK data) /\
  (forall data,
     generateSampleTelemetry sample_clock (Str (str "VIN001")) = OK data ->
     exists newest h,
       List.length data = 20%nat /\
       nth_error data 19 = Some newest /\
       iteration sample_clock (Str (str "VIN001"))
                 (Spec.baseHealth (str "VIN001")) (Spec.seed (str "VIN001")) 0
       = OK newest /\
       time_of (timestamp newest) = getTime sample_clock /\
       (forall x, In x data ->
          (time_of (timestamp x) <= time_of (timestamp newest))%Z) /\
       health_score newest = Some h /\
       getLatestHealthScore [] (Str (str "VIN001")) = OK h).
Proof.
  split; [lia|].
  apply (C3_newest_sample_has_current_score 20 sample_clock (str "VIN001")).
  lia.
Defined.

(** ** Literal evaluations *)

(** C4 (end-to-end scenario).  For "VIN001": the digit run is "001", which
    selects the low tier with base 48; the code units are 86, 73, 78, 48, 48,
    49 and the seed, as the specification sums it and as the source folds it,
    is 382; the variation is [382 mod 7 - 3 = 1]; both views return 49. *)
Theorem C4_VIN001_end_to_end :
  match_digits (str "VIN001") = Some (str "001") /\
  Spec.healthTierAndBase (str "VIN001") = (Spec.low, 48.0) /\
  str "VIN001" = [86; 73; 78; 48; 48; 49]%N /\
  Spec.seed (str "VIN001") = 382%Z /\
  reduce (fun acc char => (acc + charCodeAt0 char)%Z) 0%Z
         (split_chars (str "VIN001")) = 382%Z /\
  (382 mod 7 = 4)%Z /\ (Z.rem 382 7 - 3 = 1)%Z /\
  Spec.variation (str "VIN001") = 1%Z /\
  Spec.currentHealthScore (str "VIN001") = 49.0 /\
  getLatestHealthScore [] (Str (str "VIN001")) = OK 49.0 /\
  (forall now,
     score_of (CustomerDashboard.generateSampleTelemetryForHealth
                 now (Str (str "VIN001"))) = OK 49.0) /\
  49.0 == 49.
Proof.
  repeat split; vm_compute; reflexivity.
Qed.

(** C8 (tier mapping, literal cases).  "DEMO_VIN_001" has the digit run
    "001", falls in the low tier and scores 49, within [45, 51]; "VIN002"
    falls in the medium tier and scores 74, within [69, 75]; "VIN999" has the
    digit run "999", which matches neither case, falls in the good tier and
    scores 81, within [79, 85]. *)
Theorem C8_tier_literals :
  (exists h,
     getLatestHealthScore [] (Str (str "DEMO_VIN_001")) = OK h /\
     Spec.healthTierAndBase (str "DEMO_VIN_001") = (Spec.low, 48.0) /\
     h == 49 /\ 45.0 <= h <= 51.0) /\
  (exists h,
     getLatestHealthScore [] (Str (str "VIN002")) = OK h /\
     Spec.healthTierAndBase (str "VIN002") = (Spec.medium, 72.0) /\
     h == 74 /\ 69.0 <= h <= 75.0) /\
  (exists h,
     getLatestHealthScore [] (Str (str "VIN999")) = OK h /\
     Spec.digitRun (str "VIN999") = str "999" /\
     Spec.healthTierAndBase (str "VIN999") = (Spec.good, 82.0) /\
     h == 81 /\ 79.0 <= h <= 85.0).
Proof.
  repeat split; eexists; repeat split;
    try (vm_compute; reflexivity); q_decide.
Qed.

(** ** Bands, bounds and shape *)

(** C5 (band correlation).  For every VIN string the series is generated and
    has exactly 20 samples, and each of them carries a [health_score]; when
    that score is below 50 the sample has [anomaly_detected = true] and
    [error_codes = ["P0300", "P0171"]], and when it is at least 70 the sample
    has [anomaly_detected = false] and no error codes. *)
Theorem C5_band_correlation (now : Clock) (s : jsstring) :
  exists data,
    generateSampleTelemetry now (Str s) = OK data /\
    List.length data = 20%nat /\
    forall x, In x data ->
      exists h,
        health_score x = Some h /\
        (h < 50 ->
         anomaly_detected x = true /\
         error_codes x = [str "P0300"; str "P0171"]) /\
        (70 <= h ->
         anomaly_detected x = false /\ error_codes x = []).
Proof.
  destruct (generateSeries_total 20 now s ltac:(lia)) as [data G].
  exists data. split; [exact G|].
  split; [exact (series_length 20 now s data G)|].
  intros x Hx.
  destruct (series_sample 20 now s data x G Hx) as (i & Hi & Hxi).
  destruct (sample_fields now s i x ltac:(lia) Hxi) as (_ & H & Lo & Hi').
  exists (Spec.healthScoreAt s i). repeat split; try assumption;
    first [apply Lo | apply Hi']; assumption.
Qed.

(** C6 (bounds).  For every VIN string, the score that the monitoring view
    computes from the VIN and the score that the customer dashboard computes
    both lie between 30 and 100. *)
Theorem C6_score_bounds (s : jsstring) (telemetry : list TelemetrySample)
    (now : Clock) :
  synthesizes telemetry (Str s) = true ->
  (exists h,
     getLatestHealthScore telemetry (Str s) = OK h /\ 30 <= h <= 100) /\
  (exists d,
     score_of (CustomerDashboard.generateSampleTelemetryForHealth now (Str s))
     = OK d /\ 30 <= d <= 100).
Proof.
  intros H.
  assert (B : 30 <= Spec.currentHealthScore s <= 100).
  { destruct (currentHealthScore_bounds s) as [L U]. split.
    - apply Qle_trans with 45; [q_decide | exact L].
    - apply Qle_trans with 85; [exact U | q_decide]. }
  split.
  - exists (Spec.currentHealthScore s).
    split; [apply getLatestHealthScore_synthesized; exact H | exact B].
  - destruct s as [|c s'].
    + exists 75.0. split; [reflexivity | split; q_decide].
    + exists (Spec.currentHealthScore (c :: s')).
      rewrite generateSampleTelemetryForHealth_nonempty by discriminate.
      split; [reflexivity | exact B].
Qed.

Lemma C6_score_bounds_witness :
  synthesizes [] (Str (str "VIN999")) = true /\
  (exists h,
     getLatestHealthScore [] (Str (str "VIN999")) = OK h /\ 30 <= h <= 100) /\
  (exists d,
     score_of (CustomerDashboard.generateSampleTelemetryForHealth
                 sample_clock (Str (str "VIN999")))
     = OK d /\ 30 <= d <= 100).
Proof.
  split; [reflexivity|].
  apply (C6_score_bounds (str "VIN999") [] sample_clock). reflexivity.
Defined.

(** The time values of the samples follow the loop indices. *)
Lemma times_of_iterations (now : Clock) (vin : value) (b : Q) (sd : Z)
    (idx : list Z) (new : list TelemetrySample) :
  Forall2 (fun k x => iteration now vin b sd k = OK x) idx new ->
  times new = map (fun k => (getTime now - k * 60000)%Z) idx.
Proof.
  induction 1 as [|k x idx new Hk F IH]; simpl; [reflexivity|].
  apply iteration_inv in Hk. cbv zeta in Hk. destruct Hk as [-> _].
  now rewrite <- IH.
Qed.

(** C7 (series shape).  For every VIN string [generateSampleTelemetry]
    returns 20 samples; the sample at position [k] is stamped
    [now - (19 - k)] minutes, so that the timestamps ascend strictly, each one
    minute (60000 ms) after the one before. *)
Theorem C7_series_shape (now : Clock) (s : jsstring) :
  exists data,
    generateSampleTelemetry now (Str s) = OK data /\
    List.length data = 20%nat /\
    times data
    = map (fun k => (getTime now - (19 - Z.of_nat k) * 60000)%Z) (seq 0 20) /\
    StronglySorted Z.lt (times data) /\
    (forall k a b,
       nth_error (times data) k = Some a ->
       nth_error (times data) (S k) = Some b ->
       b = (a + 60000)%Z).
Proof.
  destruct (generateSeries_total 20 now s ltac:(lia)) as [data G].
  exists data. split; [exact G|].
  split; [exact (series_length 20 now s data G)|].
  apply generateSeries_inv in G as (new & -> & F).
  apply times_of_iterations in F.
  assert (T : times (rev new)
              = map (fun k => (getTime now - (19 - Z.of_nat k) * 60000)%Z)
                    (seq 0 20)).
  { unfold times in *. rewrite map_rev, F. cbn.
    repeat (f_equal; [lia|]). reflexivity. }
  rewrite T. split; [reflexivity|]. cbn. split.
  - repeat (constructor; [|repeat (constructor; [lia|]); constructor]).
    constructor.
  - intros k a b.
    do 19 (destruct k as [|k]; [cbn; intros [= <-] [= <-]; lia|]).
    destruct k as [|k]; cbn; [discriminate 2|].
    destruct k; discriminate 1.
Qed.

(** ** Totality *)

(** A VIN without digits falls back to the digit run "001". *)
Lemma no_digits_fallback (s : jsstring) :
  match_digits s = None -> or_str (match_digits s) (str "001") = str "001".
Proof. intros ->. reflexivity. Qed.

Lemma getLatestHealthScore_total (telemetry : list TelemetrySample)
    (s : jsstring) :
  exists h, getLatestHealthScore telemetry (Str s) = OK h.
Proof.
  destruct (synthesizes telemetry (Str s)) eqn:Y.
  - eexists. apply getLatestHealthScore_synthesized. exact Y.
  - unfold synthesizes in Y. apply orb_false_iff in Y as [V T].
    apply negb_false_iff in V.
    destruct telemetry as [|latest rest]; [discriminate T|].
    destruct (health_score latest) as [h|] eqn:H; [|discriminate T].
    exists h. now apply getLatestHealthScore_first.
Qed.

(** C9 (totality).  For every VIN string, the empty string, strings without
    digits and strings of any length among them, none of the three functions
    throws: [getLatestHealthScore] returns a score in every telemetry state,
    [generateSampleTelemetryForHealth] returns its object and
    [generateSampleTelemetry] returns its series.  (The embedded functions are
    structurally recursive, so each evaluation terminates.) *)
Theorem C9_total_on_strings (now : Clock) (s : jsstring)
    (telemetry : list TelemetrySample) :
  (exists h, getLatestHealthScore telemetry (Str s) = OK h) /\
  (exists r, CustomerDashboard.generateSampleTelemetryForHealth now (Str s) = OK r) /\
  (exists data, generateSampleTelemetry now (Str s) = OK data).
Proof.
  split; [apply getLatestHealthScore_total|]. split.
  - destruct s as [|c s'].
    + eexists. apply generateSampleTelemetryForHealth_empty.
    + eexists. apply generateSampleTelemetryForHealth_nonempty. discriminate.
  - apply (generateSeries_total 20 now s). lia.
Qed.

(** ** The record the monitoring view reads as the latest *)

Lemma mod7_shift_19 (z : Z) : ((z + 19) mod 7 <> z mod 7)%Z.
Proof.
  Z.to_euclidean_division_equations. lia.
Qed.

(** C10, as amended.  For every non-empty VIN string, once the telemetry
    state holds the generated series, [telemetry[0]] is the sample of loop
    index 19, the oldest, and the score that [getLatestHealthScore] shows is
    that sample's, [base + ((seed + 19) mod 7 - 3)], which differs from the
    score [base + (seed mod 7 - 3)] computed from the VIN without telemetry. *)
Theorem C10_latest_is_oldest_sample (now : Clock) (s : jsstring) :
  s <> [] -> shows_oldest_sample now s.
Proof.
  intros Hs. unfold shows_oldest_sample.
  destruct (generateSeries_total 20 now s ltac:(lia)) as [data G].
  destruct (series_nth 20 now s data 0 G ltac:(lia)) as (oldest & Hnth & Hit).
  change (Z.of_nat (20 - 1 - 0)) with 19%Z in Hit.
  destruct (sample_fields now s 19 oldest ltac:(lia) Hit) as (_ & H & _).
  exists data, oldest, (Spec.healthScoreAt s 19), (Spec.currentHealthScore s).
  split; [exact G|]. split; [exact Hnth|]. split; [exact Hit|].
  split; [exact H|]. split.
  { destruct data as [|x rest]; [discriminate Hnth|].
    injection Hnth as ->.
    apply getLatestHealthScore_first; [|exact H].
    destruct s; [contradiction | reflexivity]. }
  split; [apply healthScoreAt_exact; lia|].
  split; [apply getLatestHealthScore_synthesized, synthesizes_nil|].
  assert (C : Spec.currentHealthScore s
              == Spec.baseHealth s + inject_Z (Spec.seed s mod 7 - 3)).
  { rewrite currentHealthScore_at_0, (healthScoreAt_exact s 0 ltac:(lia)).
    now rewrite Z.add_0_r. }
  split; [exact C|].
  rewrite C, (healthScoreAt_exact s 19 ltac:(lia)).
  intros E. apply Qplus_inj_l in E. apply -> inject_Z_injective in E.
  pose proof (mod7_shift_19 (Spec.seed s)). lia.
Qed.

Lemma C10_latest_is_oldest_sample_witness :
  str "VIN001" <> [] /\ shows_oldest_sample sample_clock (str "VIN001").
Proof.
  split; [discriminate|].
  apply (C10_latest_is_oldest_sample sample_clock (str "VIN001")).
  discriminate.
Defined.

(** C10 as stated fails for the empty VIN: [getLatestHealthScore] takes its
    [!vin] branch although the telemetry state holds the series, and shows
    the score computed from the VIN, 45, not the oldest sample's 50. *)
Lemma C10_empty_vin_counterexample :
  ~ shows_oldest_sample sample_clock empty_vin.
Proof.
  unfold shows_oldest_sample.
  intros (data & oldest & shown & current & G & L & _ & H & S & _).
  vm_compute in G. injection G as <-.
  vm_compute in L. injection L as <-.
  vm_compute in H. injection H as <-.
  vm_compute in S. discriminate S.
Qed.

(** * The rest of the two pages *)

(** ** Sorting newest first *)

Lemma sort_insert_perm {A : Type} (compare : A -> A -> Z) (x : A) (l : list A) :
  Permutation (sort_insert compare x l) (x :: l).
Proof.
  induction l as [|y l IH]; simpl; [reflexivity|].
  destruct (compare x y <=? 0)%Z; [reflexivity|].
  rewrite IH. apply perm_swap.
Qed.

Lemma sort_perm {A : Type} (compare : A -> A -> Z) (l : list A) :
  Permutation (sort compare l) l.
Proof.
  induction l as [|x l IH]; simpl; [reflexivity|].
  fold (sort compare l). rewrite sort_insert_perm. now constructor.
Qed.

Lemma sort_length {A : Type} (compare : A -> A -> Z) (l : list A) :
  List.length (sort compare l) = List.length l.
Proof. apply Permutation_length, sort_perm. Qed.

Lemma sort_insert_newest_first (x : TelemetrySample) (l : list TelemetrySample) :
  StronglySorted not_older l ->
  StronglySorted not_older (sort_insert newestFirst x l).
Proof.
  induction 1 as [|y l S IH F]; simpl.
  - repeat constructor.
  - unfold newestFirst at 1. cbv zeta.
    destruct (Z.leb_spec (time_of (timestamp y) - time_of (timestamp x)) 0)
      as [L|L].
    + constructor; [constructor; assumption|].
      constructor; [unfold not_older; lia|].
      eapply Forall_impl; [|exact F].
      unfold not_older. intros; lia.
    + constructor; [exact IH|].
      apply (Permutation_Forall (Permutation_sym (sort_insert_perm newestFirst x l))).
      constructor; [unfold not_older; lia | exact F].
Qed.

Lemma sort_newest_first (l : list TelemetrySample) :
  StronglySorted not_older (sort newestFirst l).
Proof.
  induction l as [|x l IH]; simpl; [constructor|].
  apply sort_insert_newest_first. exact IH.
Qed.

(** The first record of the sorted array is a record of the array and no
    record is newer. *)
Lemma sort_head_newest (l : list TelemetrySample) (latest : TelemetrySample) :
  nth_error (sort newestFirst l) 0 = Some latest ->
  In latest l /\ forall x, In x l -> not_older latest x.
Proof.
  intros H.
  pose proof (sort_newest_first l) as S.
  pose proof (sort_perm newestFirst l) as P.
  destruct (sort newestFirst l) as [|y rest]; [discriminate H|].
  injection H as ->. split.
  - apply (Permutation_in _ P). now left.
  - intros x Hx. apply (Permutation_in _ (Permutation_sym P)) in Hx.
    destruct Hx as [<- | Hx].
    + unfold not_older. lia.
    + apply StronglySorted_inv in S as [_ F].
      rewrite Forall_forall in F. now apply F.
Qed.

(** Sorting an array that is already newest first leaves it as it is. *)
Lemma sort_sorted (l : list TelemetrySample) :
  StronglySorted not_older l -> sort newestFirst l = l.
Proof.
  induction 1 as [|x l S IH F]; simpl; [reflexivity|].
  fold (sort newestFirst l). rewrite IH.
  destruct l as [|y l']; [reflexivity|]. simpl.
  apply Forall_inv in F. unfold not_older in F.
  unfold newestFirst. cbv zeta.
  destruct (Z.leb_spec (time_of (timestamp y) - time_of (timestamp x)) 0);
    [reflexivity | lia].
Qed.

Lemma sort_idempotent (l : list TelemetrySample) :
  sort newestFirst (sort newestFirst l) = sort newestFirst l.
Proof. apply sort_sorted, sort_newest_first. Qed.

Lemma sort_nonempty (l : list TelemetrySample) :
  l <> [] -> (List.length (sort newestFirst l) =? 0)%nat = false.
Proof.
  intros H. rewrite sort_length. destruct l; [contradiction | reflexivity].
Qed.

(** The dashboard's comparator is the monitoring view's. *)
Lemma dashboard_comparator :
  CustomerDashboard.newestFirst = newestFirst.
Proof. reflexivity. Qed.

(** ** [loadTelemetry] *)

Lemma loadTelemetry_records (now : Clock) (vin : value)
    (t old : list TelemetrySample) :
  t <> [] ->
  loadTelemetry now (Some vin) (Resolved (Some t)) old
  = OK (sort newestFirst t).
Proof.
  intros Ht. unfold loadTelemetry. cbv zeta.
  now rewrite (sort_nonempty t Ht).
Qed.

(** X1.  When the backend returns telemetry records, [loadTelemetry] leaves
    exactly these records in the state, newest first. *)
Theorem X1_loadTelemetry_backend_newest_first (now : Clock) (vin : value)
    (t old : list TelemetrySample) :
  t <> [] ->
  exists state,
    loadTelemetry now (Some vin) (Resolved (Some t)) old = OK state /\
    Permutation state t /\
    StronglySorted not_older state.
Proof.
  intros Ht. exists (sort newestFirst t).
  split; [exact (loadTelemetry_records now vin t old Ht)|].
  split; [apply sort_perm | apply sort_newest_first].
Qed.

Lemma X1_loadTelemetry_backend_newest_first_witness :
  backend_records <> [] /\
  exists state,
    loadTelemetry sample_clock (Some (Str (str "VIN002")))
                  (Resolved (Some backend_records)) [] = OK state /\
    Permutation state backend_records /\
    StronglySorted not_older state.
Proof.
  split; [discriminate|].
  apply (X1_loadTelemetry_backend_newest_first sample_clock
           (Str (str "VIN002")) backend_records []).
  discriminate.
Defined.

Lemma loadTelemetry_no_records (now : Clock) (vin : value)
    (resp : response (option (list TelemetrySample)))
    (old : list TelemetrySample) :
  no_records resp = true ->
  loadTelemetry now (Some vin) resp old = generateSampleTelemetry now vin.
Proof.
  intros H. unfold loadTelemetry. cbv zeta.
  destruct resp as [|[t|]]; simpl in H; [reflexivity| |].
  - rewrite sort_length, H.
    destruct (generateSampleTelemetry now vin); reflexivity.
  - simpl. destruct (generateSampleTelemetry now vin); reflexivity.
Qed.


(** X3.  For a selected vehicle that has no VIN, a telemetry request that
    brings no records makes [loadTelemetry] throw: the [TypeError] of
    [generateSampleTelemetry] is caught once, raised again by the [catch]
    block, and no telemetry state is set. *)
Theorem X3_loadTelemetry_without_vin_throws (now : Clock) (vin : value)
    (resp : response (option (list TelemetrySample)))
    (old : list TelemetrySample) :
  vin = Undefined \/ vin = Null ->
  no_records resp = true ->
  loadTelemetry now (Some vin) resp old = Throw TypeError.
Proof.
  intros Hv N. rewrite (loadTelemetry_no_records now vin resp old N).
  destruct Hv as [-> | ->]; reflexivity.
Qed.

Lemma X3_loadTelemetry_without_vin_throws_witness :
  (Undefined = Undefined \/ Undefined = Null) /\
  no_records (Resolved (Some [])) = true /\
  loadTelemetry sample_clock (Some Undefined) (Resolved (Some [])) []
  = Throw TypeError.
Proof.
  split; [left; reflexivity|]. split; [reflexivity|].
  apply (X3_loadTelemetry_without_vin_throws sample_clock Undefined
           (Resolved (Some [])) []); [left; reflexivity | reflexivity].
Defined.

(** X4.  With backend records and a non-empty VIN, the health score the
    monitoring view shows after [loadTelemetry] is the one of a backend
    record than which none is newer, whenever that record carries one. *)
Theorem X4_backend_score_shown_is_newest (now : Clock) (vin : value)
    (t old : list TelemetrySample) :
  truthy vin = true ->
  t <> [] ->
  exists state latest,
    loadTelemetry now (Some vin) (Resolved (Some t)) old = OK state /\
    latestTelemetry state = Some latest /\
    In latest t /\
    (forall x, In x t -> not_older latest x) /\
    (forall h, health_score latest = Some h ->
               getLatestHealthScore state vin = OK h).
Proof.
  intros Hv Ht.
  destruct (sort newestFirst t) as [|latest rest] eqn:E.
  { pose proof (sort_length newestFirst t) as L. rewrite E in L.
    destruct t; [contradiction | discriminate L]. }
  exists (latest :: rest), latest.
  rewrite (loadTelemetry_records now vin t old Ht), E.
  split; [reflexivity|]. split; [reflexivity|].
  destruct (sort_head_newest t latest) as [I N]; [now rewrite E|].
  split; [exact I|]. split; [exact N|].
  intros h Hh. now apply getLatestHealthScore_first.
Qed.

Lemma X4_backend_score_shown_is_newest_witness :
  truthy (Str (str "VIN002")) = true /\
  backend_records <> [] /\
  exists state latest,
    loadTelemetry sample_clock (Some (Str (str "VIN002")))
                  (Resolved (Some backend_records)) [] = OK state /\
    latestTelemetry state = Some latest /\
    In latest backend_records /\
    (forall x, In x backend_records -> not_older latest x) /\
    (forall h, health_score latest = Some h ->
               getLatestHealthScore state (Str (str "VIN002")) = OK h).
Proof.
  split; [reflexivity|]. split; [discriminate|].
  apply (X4_backend_score_shown_is_newest sample_clock (Str (str "VIN002"))
           backend_records []); [reflexivity | discriminate].
Defined.

(** ** The fallback prediction of [runPrediction] *)

Lemma num_lt_false (x y : Q) : num_lt x y = false <-> y <= x.
Proof.
  unfold num_lt. rewrite negb_false_iff. apply Qle_bool_iff.
Qed.

Lemma or_number_nonzero (h d : Q) : ~ h == 0 -> or_number (Some h) d = h.
Proof.
  intros H. unfold or_number.
  destruct (Qeq_bool h 0) eqn:E; [|reflexivity].
  apply Qeq_bool_iff in E. contradiction.
Qed.

Ltac flags latest :=
  destruct (holds latest (fun x => num_lt 100 (engine_temperature x)));
  destruct (holds latest (fun x => num_lt (oil_pressure x) 30));
  destruct (holds latest (fun x => num_lt (battery_voltage x) 12.0));
  destruct (holds latest anomaly_detected).

(** X5.  The risk score of the fallback prediction always lies between 0.1
    and 1, whatever the telemetry state holds. *)
Theorem X5_fallback_risk_bounds (telemetry : list TelemetrySample) :
  PrimFloat.leb 0.1 (Prediction.risk_score (fallbackPrediction telemetry)) = true /\
  PrimFloat.leb (Prediction.risk_score (fallbackPrediction telemetry)) 1.0 = true.
Proof.
  unfold fallbackPrediction. cbv zeta. cbn [Prediction.risk_score].
  set (latest := nth_error telemetry 0).
  set (hs := or_number _ 75).
  destruct (num_lt hs 40), (num_lt hs 60), (num_lt hs 70), (num_lt hs 80);
    flags latest; split; vm_compute; reflexivity.
Qed.

(** The prediction for a first record with a score that is not [0], by the
    comparisons the source makes. *)
Lemma fallbackPrediction_bands (x : TelemetrySample)
    (rest : list TelemetrySample) (h : Q) :
  health_score x = Some h ->
  ~ h == 0 ->
  let p := fallbackPrediction (x :: rest) in
  Prediction.health_score p = h /\
  (h < 40 -> high_risk p) /\
  (h < 60 -> unflagged x = false -> high_risk p) /\
  (unflagged x = true ->
   (40 <= h -> h < 60 -> moderate_risk p) /\
   (60 <= h -> h < 70 -> low_risk p) /\
   (70 <= h -> good_condition p)).
Proof.
  intros Hh Hz. cbv zeta.
  unfold fallbackPrediction, high_risk, moderate_risk, low_risk, good_condition.
  cbv zeta.
  cbn [Prediction.risk_score Prediction.recommendation
       Prediction.predicted_failure_window Prediction.health_score
       nth_error holds].
  rewrite Hh, (or_number_nonzero h 75 Hz).
  assert (K : forall a : Q, a <= h -> forall c, c < a -> num_lt h c = false).
  { intros a L c Lc. apply num_lt_false.
    apply Qlt_le_weak, Qlt_le_trans with a; assumption. }
  split; [reflexivity|]. split; [|split].
  - intros L. apply num_lt_spec in L. rewrite L.
    destruct (num_lt 100 (engine_temperature x)),
             (num_lt (oil_pressure x) 30),
             (num_lt (battery_voltage x) 12.0),
             (anomaly_detected x); split; vm_compute; reflexivity.
  - intros L U. apply num_lt_spec in L. rewrite L. unfold unflagged in U.
    destruct (num_lt h 40);
    destruct (num_lt 100 (engine_temperature x)),
             (num_lt (oil_pressure x) 30),
             (num_lt (battery_voltage x) 12.0),
             (anomaly_detected x); try discriminate U;
      split; vm_compute; reflexivity.
  - unfold unflagged. intros U.
    apply andb_true_iff in U as [U A]. apply andb_true_iff in U as [U B].
    apply andb_true_iff in U as [T O].
    apply negb_true_iff in T, O, B, A. rewrite T, O, B, A.
    split; [|split].
    + intros L1 L2. apply num_lt_false in L1. apply num_lt_spec in L2.
      rewrite L1, L2. split; vm_compute; reflexivity.
    + intros L1 L2. rewrite (K 60 L1 40 ltac:(q_decide)).
      apply num_lt_false in L1. apply num_lt_spec in L2.
      rewrite L1, L2. split; vm_compute; reflexivity.
    + intros L1.
      rewrite (K 70 L1 40 ltac:(q_decide)), (K 70 L1 60 ltac:(q_decide)).
      apply num_lt_false in L1. rewrite L1.
      destruct (num_lt h 80); split; vm_compute; reflexivity.
Qed.

(** X6.  How the fallback prediction grades a first telemetry record with a
    score other than 0: below 40 it reports high risk; below 60 it reports
    high risk as soon as one reading is flagged (temperature above 100, oil
    pressure below 30, battery below 12 volts, or an anomaly); with no
    flagged reading it reports moderate risk from 40 to 60, low risk from 60
    to 70 and good condition from 70 on.  The prediction carries the
    record's score. *)
Theorem X6_fallback_grades_by_health (x : TelemetrySample)
    (rest : list TelemetrySample) (h : Q) :
  health_score x = Some h ->
  ~ h == 0 ->
  Prediction.health_score (fallbackPrediction (x :: rest)) = h /\
  (h < 40 -> high_risk (fallbackPrediction (x :: rest))) /\
  (h < 60 -> unflagged x = false -> high_risk (fallbackPrediction (x :: rest))) /\
  (unflagged x = true ->
   (40 <= h -> h < 60 -> moderate_risk (fallbackPrediction (x :: rest))) /\
   (60 <= h -> h < 70 -> low_risk (fallbackPrediction (x :: rest))) /\
   (70 <= h -> good_condition (fallbackPrediction (x :: rest)))).
Proof.
  intros Hh Hz. exact (fallbackPrediction_bands x rest h Hh Hz).
Qed.

Lemma X6_fallback_grades_by_health_witness :
  health_score (backend_record 1700000000000 (Some 64)) = Some 64 /\
  ~ 64 == 0 /\
  Prediction.health_score
    (fallbackPrediction [backend_record 1700000000000 (Some 64)]) = 64 /\
  low_risk (fallbackPrediction [backend_record 1700000000000 (Some 64)]).
Proof.
  split; [reflexivity|]. split; [q_decide|].
  destruct (X6_fallback_grades_by_health
              (backend_record 1700000000000 (Some 64)) [] 64
              eq_refl ltac:(q_decide)) as (E & _ & _ & G).
  split; [exact E|].
  destruct (G eq_refl) as (_ & L & _).
  apply L; q_decide.
Defined.

(** X7.  When the first telemetry record gives no usable score (the state is
    empty, or the record's [health_score] is missing or 0), the fallback
    prediction reports a health score of 75 and a risk of at least 0.25; on
    the empty state it is the fixed prediction of risk 0.25 and good
    condition. *)
Theorem X7_fallback_without_score (telemetry : list TelemetrySample) :
  no_usable_score telemetry = true ->
  Prediction.health_score (fallbackPrediction telemetry) = 75 /\
  PrimFloat.leb 0.25 (Prediction.risk_score (fallbackPrediction telemetry)) = true /\
  (telemetry = [] ->
   Prediction.risk_score (fallbackPrediction telemetry) = 0.25%float /\
   good_condition (fallbackPrediction telemetry)).
Proof.
  intros N.
  assert (E : or_number (match nth_error telemetry 0 with
                         | Some x => health_score x
                         | None => None
                         end) 75 = 75).
  { destruct telemetry as [|x rest]; [reflexivity|]. simpl in *.
    destruct (health_score x) as [h|]; [|reflexivity].
    simpl. now rewrite N. }
  unfold fallbackPrediction, good_condition. cbv zeta.
  cbn [Prediction.risk_score Prediction.recommendation
       Prediction.predicted_failure_window Prediction.health_score].
  rewrite E. split; [reflexivity|]. split.
  - set (latest := nth_error telemetry 0).
    flags latest; vm_compute; reflexivity.
  - intros ->. vm_compute. repeat split.
Qed.

Lemma X7_fallback_without_score_witness :
  no_usable_score [backend_record 1700000000000 (Some 0)] = true /\
  Prediction.health_score
    (fallbackPrediction [backend_record 1700000000000 (Some 0)]) = 75.
Proof.
  split; [reflexivity|].
  apply (X7_fallback_without_score [backend_record 1700000000000 (Some 0)]).
  reflexivity.
Defined.

(** X9.  Binary64 rounding decides a recommendation: for a first record in
    good health (score 80 or more) whose only flagged readings are a battery
    below 12 volts and an anomaly, the risk score is [0.1 + 0.1 + 0.1], which
    in binary64 is above 0.3, and the prediction reports low risk instead of
    good condition. *)
Theorem X9_fallback_rounding_above_threshold (x : TelemetrySample)
    (rest : list TelemetrySample) (h : Q) :
  health_score x = Some h ->
  80 <= h ->
  num_lt 100 (engine_temperature x) = false ->
  num_lt (oil_pressure x) 30 = false ->
  num_lt (battery_voltage x) 12.0 = true ->
  anomaly_detected x = true ->
  Prediction.risk_score (fallbackPrediction (x :: rest))
  = (0.1 + 0.1 + 0.1)%float /\
  PrimFloat.ltb 0.3 (Prediction.risk_score (fallbackPrediction (x :: rest))) = true /\
  low_risk (fallbackPrediction (x :: rest)).
Proof.
  intros Hh L T O B A.
  assert (Hz : ~ h == 0).
  { intros E. rewrite E in L. apply L. reflexivity. }
  assert (K : forall c, c < 80 -> num_lt h c = false).
  { intros c Lc. apply num_lt_false.
    apply Qlt_le_weak, Qlt_le_trans with 80; assumption. }
  unfold fallbackPrediction, low_risk. cbv zeta.
  cbn [Prediction.risk_score Prediction.recommendation
       Prediction.predicted_failure_window Prediction.health_score
       nth_error holds].
  rewrite Hh, (or_number_nonzero h 75 Hz), T, O, B, A.
  rewrite (K 40 ltac:(q_decide)), (K 60 ltac:(q_decide)),
    (K 70 ltac:(q_decide)).
  apply num_lt_false in L. rewrite L.
  repeat split; vm_compute; reflexivity.
Qed.

Lemma X9_fallback_rounding_above_threshold_witness :
  health_score low_battery_record = Some 85 /\
  80 <= 85 /\
  num_lt 100 (engine_temperature low_battery_record) = false /\
  num_lt (oil_pressure low_battery_record) 30 = false /\
  num_lt (battery_voltage low_battery_record) 12.0 = true /\
  anomaly_detected low_battery_record = true /\
  low_risk (fallbackPrediction [low_battery_record]).
Proof.
  repeat (split; [first [reflexivity | q_decide]|]).
  apply (X9_fallback_rounding_above_threshold low_battery_record [] 85);
    first [reflexivity | q_decide].
Defined.

(** ** The fallback prediction on the generated series *)




(** ** The customer dashboard's health data *)

Lemma generateSampleTelemetryForHealth_total (now : Clock) (vin : value) :
  exists sample,
    CustomerDashboard.generateSampleTelemetryForHealth now vin = OK sample.
Proof.
  destruct vin as [| |[|c s]]; try (eexists; reflexivity).
  eexists. apply generateSampleTelemetryForHealth_nonempty. discriminate.
Qed.

(** With records, [getHealthScoreForVehicle] reads the first of them in
    newest-first order and keeps its score unless it is missing or [0]. *)
Lemma getHealthScoreForVehicle_records (now : Clock) (vin : value)
    (t : list TelemetrySample) (latest : TelemetrySample) :
  nth_error (sort newestFirst t) 0 = Some latest ->
  CustomerDashboard.getHealthScoreForVehicle now vin (Some t)
  = or_number_lazy (health_score latest)
      (score_of (CustomerDashboard.generateSampleTelemetryForHealth now vin)).
Proof.
  intros H. unfold CustomerDashboard.getHealthScoreForVehicle.
  destruct t as [|x t']; [discriminate H|].
  cbn [List.length Nat.eqb]. rewrite dashboard_comparator, H. reflexivity.
Qed.

Lemma healthEntry_records (now : Clock) (vin : value)
    (t : list TelemetrySample) (latest : TelemetrySample) (h : Q) :
  nth_error (sort newestFirst t) 0 = Some latest ->
  CustomerDashboard.getHealthScoreForVehicle now vin (Some t) = OK h ->
  exists entry,
    CustomerDashboard.healthEntry now vin (Resolved (Some t)) = OK entry /\
    CustomerDashboard.HealthData.health_score entry = h /\
    CustomerDashboard.HealthData.timestamp entry = timestamp latest.
Proof.
  intros H G. unfold CustomerDashboard.healthEntry. cbv zeta.
  rewrite dashboard_comparator.
  rewrite (getHealthScoreForVehicle_records now vin _ latest)
    by (now rewrite sort_idempotent).
  rewrite <- (getHealthScoreForVehicle_records now vin t latest H), G.
  cbn [bind]. rewrite sort_length.
  assert (L : (0 <? List.length t)%nat = true).
  { destruct t; [discriminate H | reflexivity]. }
  rewrite L, H. cbn [bind]. eexists. split; [reflexivity|]. split; reflexivity.
Qed.

(** X10.  Both pages show the backend's newest score.  For a non-empty VIN
    and backend records of which the first in newest-first order carries a
    score other than 0, the monitoring view (after [loadTelemetry]), the
    dashboard's [getHealthScoreForVehicle] and the dashboard's health entry
    all give that score. *)
Theorem X10_pages_agree_on_backend_score (now : Clock) (vin : value)
    (t old : list TelemetrySample) (latest : TelemetrySample) (h : Q) :
  truthy vin = true ->
  nth_error (sort newestFirst t) 0 = Some latest ->
  health_score latest = Some h ->
  ~ h == 0 ->
  (exists state,
     loadTelemetry now (Some vin) (Resolved (Some t)) old = OK state /\
     getLatestHealthScore state vin = OK h) /\
  CustomerDashboard.getHealthScoreForVehicle now vin (Some t) = OK h /\
  (exists entry,
     CustomerDashboard.healthEntry now vin (Resolved (Some t)) = OK entry /\
     CustomerDashboard.HealthData.health_score entry = h).
Proof.
  intros Hv H Hh Hz.
  assert (Ht : t <> []) by (intros ->; discriminate H).
  assert (G : CustomerDashboard.getHealthScoreForVehicle now vin (Some t) = OK h).
  { rewrite (getHealthScoreForVehicle_records now vin t latest H), Hh.
    unfold or_number_lazy.
    destruct (Qeq_bool h 0) eqn:E; [|reflexivity].
    apply Qeq_bool_iff in E. contradiction. }
  split; [|split; [exact G|]].
  - exists (sort newestFirst t).
    split; [exact (loadTelemetry_records now vin t old Ht)|].
    destruct (sort newestFirst t) as [|y rest]; [discriminate H|].
    injection H as ->. now apply getLatestHealthScore_first.
  - destruct (healthEntry_records now vin t latest h H G) as (e & E & S & _).
    exists e. split; assumption.
Qed.

Lemma X10_pages_agree_on_backend_score_witness :
  truthy (Str (str "VIN002")) = true /\
  nth_error (sort newestFirst backend_records) 0
  = Some (backend_record 1700000180000 (Some 61)) /\
  health_score (backend_record 1700000180000 (Some 61)) = Some 61 /\
  ~ 61 == 0 /\
  (exists state,
     loadTelemetry sample_clock (Some (Str (str "VIN002")))
                   (Resolved (Some backend_records)) [] = OK state /\
     getLatestHealthScore state (Str (str "VIN002")) = OK 61) /\
  CustomerDashboard.getHealthScoreForVehicle
    sample_clock (Str (str "VIN002")) (Some backend_records) = OK 61.
Proof.
  split; [reflexivity|]. split; [reflexivity|]. split; [reflexivity|].
  split; [q_decide|].
  destruct (X10_pages_agree_on_backend_score sample_clock (Str (str "VIN002"))
              backend_records [] (backend_record 1700000180000 (Some 61)) 61
              eq_refl eq_refl eq_refl ltac:(q_decide)) as (A & B & _).
  split; assumption.
Defined.

(** X11.  The pages part on a score of 0.  When the newest backend record
    carries the score 0, the monitoring view shows that score, while the
    dashboard's [latest.health_score || ...] discards it and gives the score
    synthesized from the VIN, which is at least 45. *)
Theorem X11_pages_differ_on_zero_score (now : Clock) (s : jsstring)
    (t old : list TelemetrySample) (latest : TelemetrySample) (h : Q) :
  s <> [] ->
  nth_error (sort newestFirst t) 0 = Some latest ->
  health_score latest = Some h ->
  h == 0 ->
  (exists state,
     loadTelemetry now (Some (Str s)) (Resolved (Some t)) old = OK state /\
     getLatestHealthScore state (Str s) = OK h) /\
  (exists d,
     CustomerDashboard.getHealthScoreForVehicle now (Str s) (Some t) = OK d /\
     score_of (CustomerDashboard.generateSampleTelemetryForHealth now (Str s))
     = OK d /\
     45 <= d /\ ~ d == h).
Proof.
  intros Hs H Hh Hz.
  assert (Ht : t <> []) by (intros ->; discriminate H).
  split.
  - exists (sort newestFirst t).
    split; [exact (loadTelemetry_records now (Str s) t old Ht)|].
    destruct (sort newestFirst t) as [|y rest]; [discriminate H|].
    injection H as ->. apply getLatestHealthScore_first; [|exact Hh].
    destruct s; [contradiction | reflexivity].
  - exists (Spec.currentHealthScore s).
    rewrite (getHealthScoreForVehicle_records now (Str s) t latest H), Hh.
    unfold or_number_lazy.
    apply Qeq_bool_iff in Hz. rewrite Hz.
    rewrite (generateSampleTelemetryForHealth_nonempty now s Hs).
    destruct (currentHealthScore_bounds s) as [B _].
    split; [reflexivity|]. split; [reflexivity|]. split; [exact B|].
    intros E. apply Qeq_bool_iff in Hz. rewrite Hz in E. rewrite E in B.
    apply B. reflexivity.
Qed.

Lemma X11_pages_differ_on_zero_score_witness :
  str "VIN002" <> [] /\
  nth_error (sort newestFirst [backend_record 1700000000000 (Some 0)]) 0
  = Some (backend_record 1700000000000 (Some 0)) /\
  health_score (backend_record 1700000000000 (Some 0)) = Some 0 /\
  0 == 0 /\
  (exists state,
     loadTelemetry sample_clock (Some (Str (str "VIN002")))
       (Resolved (Some [backend_record 1700000000000 (Some 0)])) []
     = OK state /\
     getLatestHealthScore state (Str (str "VIN002")) = OK 0) /\
  (exists d,
     CustomerDashboard.getHealthScoreForVehicle sample_clock (Str (str "VIN002"))
       (Some [backend_record 1700000000000 (Some 0)]) = OK d /\
     score_of (CustomerDashboard.generateSampleTelemetryForHealth
                 sample_clock (Str (str "VIN002"))) = OK d /\
     45 <= d /\ ~ d == 0).
Proof.
  split; [discriminate|]. split; [reflexivity|]. split; [reflexivity|].
  split; [reflexivity|].
  apply (X11_pages_differ_on_zero_score sample_clock (str "VIN002")
           [backend_record 1700000000000 (Some 0)] []
           (backend_record 1700000000000 (Some 0)) 0);
    [discriminate | reflexivity | reflexivity | reflexivity].
Defined.

Lemma healthEntry_total (now : Clock) (vin : value)
    (resp : response (option (list TelemetrySample))) :
  exists entry, CustomerDashboard.healthEntry now vin resp = OK entry.
Proof.
  unfold CustomerDashboard.healthEntry. cbv zeta.
  destruct (generateSampleTelemetryForHealth_total now vin) as [sample ->].
  cbn [bind Date_now toISOString].
  destruct resp as [|r]; [eexists; reflexivity|].
  match goal with
  | |- exists entry, match ?a with OK _ => _ | Throw _ => _ end = _ =>
    destruct a; eexists; reflexivity
  end.
Qed.

Lemma strict_eq_refl (s : jsstring) : strict_eq s s = true.
Proof.
  induction s as [|c s IH]; simpl; [reflexivity|].
  now rewrite N.eqb_refl, IH.
Qed.

(** The loop keeps every key it found and adds the key of every vehicle. *)
Lemma healthDataLoop_keys (now : Clock)
    (vehicles : list (value * response (option (list TelemetrySample)))) :
  forall acc : object CustomerDashboard.HealthData.t,
  exists healthData,
    CustomerDashboard.healthDataLoop now vehicles acc = OK healthData /\
    (forall key, obj_get acc key <> None -> obj_get healthData key <> None) /\
    (forall vin resp, In (vin, resp) vehicles ->
                      obj_get healthData (property_key vin) <> None).
Proof.
  induction vehicles as [|[vin resp] rest IH]; intros acc; simpl.
  - exists acc. split; [reflexivity|]. split; [auto | intros ? ? []].
  - destruct (healthEntry_total now vin resp) as [entry ->]. cbn [bind].
    destruct (IH (obj_set acc (property_key vin) entry))
      as (hd & E & Keep & New).
    exists hd. split; [exact E|].
    assert (Here : obj_get hd (property_key vin) <> None).
    { apply Keep. unfold obj_set. simpl. now rewrite strict_eq_refl. }
    split.
    + intros key K. apply Keep. unfold obj_set. simpl.
      destruct (strict_eq (property_key vin) key); [discriminate | exact K].
    + intros v r [[= <- <-] | I]; [exact Here | exact (New v r I)].
Qed.

(** X12.  The loop over the customer's vehicles never throws and gives every
    vehicle of the list a health entry under its VIN, whether its telemetry
    request succeeds, brings nothing or fails; the vehicle's card then shows
    the score of an entry, not the hard-coded fallback. *)
Theorem X12_every_vehicle_gets_health_entry (now : Clock)
    (vehiclesList : list (value * response (option (list TelemetrySample)))) :
  exists healthData,
    CustomerDashboard.healthDataLoop now vehiclesList [] = OK healthData /\
    forall vin getTelemetry,
      In (vin, getTelemetry) vehiclesList ->
      exists entry,
        obj_get healthData (property_key vin) = Some entry /\
        CustomerDashboard.cardHealth healthData vin
        = OK (CustomerDashboard.HealthData.health_score entry).
Proof.
  destruct (healthDataLoop_keys now vehiclesList []) as (hd & E & _ & New).
  exists hd. split; [exact E|].
  intros vin resp I. specialize (New vin resp I).
  destruct (obj_get hd (property_key vin)) as [entry|] eqn:G;
    [|contradiction].
  exists entry. split; [reflexivity|].
  unfold CustomerDashboard.cardHealth. now rewrite G.
Qed.

(** X13.  The card's hard-coded fallback against the synthesized score.  For
    a non-empty VIN without a health entry the card shows 48, 72 or 75: in
    the first two cases within 3 points of the score that
    [generateSampleTelemetryForHealth] computes, in the last case 4 to 10
    points below it; the card's status is then never "Good condition". *)
Theorem X13_card_fallback_against_synthesized (now : Clock)
    (vehicleHealth : object CustomerDashboard.HealthData.t) (s : jsstring) :
  s <> [] ->
  obj_get vehicleHealth s = None ->
  exists shown d,
    CustomerDashboard.cardHealth vehicleHealth (Str s) = OK shown /\
    score_of (CustomerDashboard.generateSampleTelemetryForHealth now (Str s))
    = OK d /\
    (((shown = 48.0 \/ shown = 72.0) /\ shown - 3 <= d <= shown + 3) \/
     (shown = 75.0 /\ 79 <= d <= 85)) /\
    CustomerDashboard.statusText shown
    <> str "Good condition - Regular maintenance recommended".
Proof.
  intros Hs G.
  rewrite (generateSampleTelemetryForHealth_nonempty now s Hs).
  unfold CustomerDashboard.cardHealth. cbn [property_key]. rewrite G.
  unfold call, bind, or_lazy. rewrite or_str_match.
  assert (V : forall b : Q, b = 48.0 \/ b = 72.0 \/ b = 82.0 ->
              forall z, (0 <= z <= 6)%Z ->
              b - 3 <= Spec.round1 (Spec.clamp (b + inject_Z (z - 3))) <= b + 3).
  { intros b Hb z Hz.
    assert (Hc : (z = 0 \/ z = 1 \/ z = 2 \/ z = 3 \/ z = 4 \/ z = 5 \/ z = 6)%Z)
      by lia.
    destruct Hb as [-> | [-> | ->]];
      destruct Hc as [-> | [-> | [-> | [-> | [-> | [-> | ->]]]]]];
      split; q_decide. }
  pose proof (seed_nonneg s) as Sd.
  pose proof (Z.mod_pos_bound (Spec.seed s) 7 ltac:(lia)) as M.
  unfold score_of, bind. cbn [CustomerDashboard.health_score].
  unfold Spec.currentHealthScore, Spec.variation, Spec.baseHealth,
    Spec.healthTierAndBase.
  destruct (strict_eq (Spec.digitRun s) (str "001")); cbn [orb snd].
  { exists 48.0. eexists. split; [reflexivity|]. split; [reflexivity|].
    split; [left; split; [now left | apply V; [now left | lia]]|].
    vm_compute. discriminate. }
  destruct (includes s (str "VIN001")); cbn [snd].
  { exists 48.0. eexists. split; [reflexivity|]. split; [reflexivity|].
    split; [left; split; [now left | apply V; [now left | lia]]|].
    vm_compute. discriminate. }
  destruct (strict_eq (Spec.digitRun s) (str "002")); cbn [orb snd].
  { exists 72.0. eexists. split; [reflexivity|]. split; [reflexivity|].
    split; [left; split; [now right | apply V; [right; now left | lia]]|].
    vm_compute. discriminate. }
  destruct (includes s (str "VIN002")); cbn [snd].
  { exists 72.0. eexists. split; [reflexivity|]. split; [reflexivity|].
    split; [left; split; [now right | apply V; [right; now left | lia]]|].
    vm_compute. discriminate. }
  exists 75.0. eexists. split; [reflexivity|]. split; [reflexivity|].
  split; [|vm_compute; discriminate].
  right. split; [reflexivity|].
  destruct (V 82.0 ltac:(right; now right) (Spec.seed s mod 7)%Z ltac:(lia))
    as [L U].
  split.
  - eapply Qle_trans; [|exact L]. q_decide.
  - eapply Qle_trans; [exact U|]. q_decide.
Qed.

Lemma X13_card_fallback_against_synthesized_witness :
  str "VIN999" <> [] /\
  obj_get (A := CustomerDashboard.HealthData.t) [] (str "VIN999") = None /\
  exists shown d,
    CustomerDashboard.cardHealth [] (Str (str "VIN999")) = OK shown /\
    score_of (CustomerDashboard.generateSampleTelemetryForHealth
                sample_clock (Str (str "VIN999"))) = OK d /\
    (((shown = 48.0 \/ shown = 72.0) /\ shown - 3 <= d <= shown + 3) \/
     (shown = 75.0 /\ 79 <= d <= 85)) /\
    CustomerDashboard.statusText shown
    <> str "Good condition - Regular maintenance recommended".
Proof.
  split; [discriminate|]. split; [reflexivity|].
  apply (X13_card_fallback_against_synthesized sample_clock [] (str "VIN999"));
    [discriminate | reflexivity].
Defined.

(** ** The dashboard's alerts *)

Lemma map_from_In {A B : Type} (f : A -> nat -> B) (arr : list A) :
  forall (index : nat) (b : B),
  In b (map_from f index arr) -> exists a k, In a arr /\ b = f a k.
Proof.
  induction arr as [|x arr IH]; intros index b; simpl; [intros []|].
  intros [<- | H].
  - exists x, index. split; [now left | reflexivity].
  - destruct (IH _ _ H) as (a & k & I & E).
    exists a, k. split; [now right | exact E].
Qed.

Lemma map_from_length {A B : Type} (f : A -> nat -> B) (arr : list A) :
  forall index, List.length (map_from f index arr) = List.length arr.
Proof.
  induction arr as [|x arr IH]; intros index; simpl; [|rewrite IH]; reflexivity.
Qed.

(** X14.  Which alerts the dashboard keeps.  Every alert it keeps comes from
    a backend alert with the same VIN, message and score; that score is
    present, is not 0 and is below 70 (an alert without a score is dropped,
    being counted as healthy); and none of the active (scheduled or
    in-progress) appointments is for its VIN. *)
Theorem X14_alerts_kept (allAppointments : list CustomerDashboard.Appointment.t)
    (maintenanceAlerts : list CustomerDashboard.Notification.t)
    (alert : CustomerDashboard.Alert.t) :
  In alert (CustomerDashboard.formattedAlerts
              (CustomerDashboard.scheduledVins allAppointments)
              maintenanceAlerts) ->
  (exists n,
     In n maintenanceAlerts /\
     CustomerDashboard.Notification.vin n = CustomerDashboard.Alert.vin alert /\
     CustomerDashboard.Notification.message n
     = CustomerDashboard.Alert.message alert /\
     CustomerDashboard.Notification.health_score n
     = CustomerDashboard.Alert.health_score alert) /\
  (exists h,
     CustomerDashboard.Alert.health_score alert = Some h /\
     h < 70 /\ ~ h == 0) /\
  (forall apt,
     In apt (CustomerDashboard.activeAppointments allAppointments) ->
     same_value (CustomerDashboard.Alert.vin alert)
                (CustomerDashboard.Appointment.vin apt) = false).
Proof.
  unfold CustomerDashboard.formattedAlerts, map_index. intros H.
  apply map_from_In in H as (n & k & I & ->).
  apply filter_In in I as [I P].
  cbn [CustomerDashboard.Alert.vin CustomerDashboard.Alert.message
       CustomerDashboard.Alert.health_score].
  destruct (Set_has (CustomerDashboard.scheduledVins allAppointments)
                    (CustomerDashboard.Notification.vin n)) eqn:S;
    [discriminate P|].
  cbv zeta in P. split; [|split].
  - exists n. repeat split. exact I.
  - destruct (CustomerDashboard.Notification.health_score n) as [h|];
      [|discriminate P].
    exists h. split; [reflexivity|]. unfold or_number in P.
    destruct (Qeq_bool h 0) eqn:E; [discriminate P|].
    split; [now apply num_lt_spec|].
    intros Z. apply Qeq_bool_iff in Z. congruence.
  - intros apt Ia.
    destruct (same_value (CustomerDashboard.Notification.vin n)
                         (CustomerDashboard.Appointment.vin apt)) eqn:V;
      [|reflexivity].
    assert (T : Set_has (CustomerDashboard.scheduledVins allAppointments)
                        (CustomerDashboard.Notification.vin n) = true).
    { unfold Set_has. apply existsb_exists.
      exists (CustomerDashboard.Appointment.vin apt). split; [|exact V].
      unfold CustomerDashboard.scheduledVins. apply in_map. exact Ia. }
    congruence.
Qed.

Lemma X14_alerts_kept_witness :
  In sample_alert
     (CustomerDashboard.formattedAlerts
        (CustomerDashboard.scheduledVins sample_appointments)
        sample_notifications) /\
  (exists h,
     CustomerDashboard.Alert.health_score sample_alert = Some h /\
     h < 70 /\ ~ h == 0) /\
  (forall apt,
     In apt (CustomerDashboard.activeAppointments sample_appointments) ->
     same_value (CustomerDashboard.Alert.vin sample_alert)
                (CustomerDashboard.Appointment.vin apt) = false).
Proof.
  assert (I : In sample_alert
                 (CustomerDashboard.formattedAlerts
                    (CustomerDashboard.scheduledVins sample_appointments)
                    sample_notifications)) by (left; reflexivity).
  split; [exact I|].
  apply (X14_alerts_kept sample_appointments sample_notifications
           sample_alert I).
Defined.

Lemma map_from_In_intro {A B : Type} (f : A -> nat -> B) (arr : list A) (a : A) :
  In a arr -> forall index, exists k, In (f a k) (map_from f index arr).
Proof.
  induction arr as [|x arr IH]; simpl; [intros []|].
  intros [-> | H] index.
  - exists index. now left.
  - destruct (IH H (S index)) as [k K]. exists k. now right.
Qed.

(** X15.  No alert is lost: a backend alert whose score is present, not 0
    and below 70, for a VIN without an active appointment, is kept by the
    dashboard with its VIN, message and score. *)
Theorem X15_alert_not_dropped
    (allAppointments : list CustomerDashboard.Appointment.t)
    (maintenanceAlerts : list CustomerDashboard.Notification.t)
    (n : CustomerDashboard.Notification.t) (h : Q) :
  In n maintenanceAlerts ->
  CustomerDashboard.Notification.health_score n = Some h ->
  h < 70 ->
  ~ h == 0 ->
  (forall apt,
     In apt (CustomerDashboard.activeAppointments allAppointments) ->
     same_value (CustomerDashboard.Notification.vin n)
                (CustomerDashboard.Appointment.vin apt) = false) ->
  exists alert,
    In alert (CustomerDashboard.formattedAlerts
                (CustomerDashboard.scheduledVins allAppointments)
                maintenanceAlerts) /\
    CustomerDashboard.Alert.vin alert = CustomerDashboard.Notification.vin n /\
    CustomerDashboard.Alert.message alert
    = CustomerDashboard.Notification.message n /\
    CustomerDashboard.Alert.health_score alert = Some h.
Proof.
  intros I Hh L Z Free.
  assert (S : Set_has (CustomerDashboard.scheduledVins allAppointments)
                      (CustomerDashboard.Notification.vin n) = false).
  { destruct (Set_has _ _) eqn:E; [|reflexivity].
    unfold Set_has in E. apply existsb_exists in E as (v & Iv & V).
    unfold CustomerDashboard.scheduledVins in Iv.
    apply in_map_iff in Iv as (apt & <- & Ia).
    rewrite (Free apt Ia) in V. discriminate V. }
  unfold CustomerDashboard.formattedAlerts, map_index.
  match goal with
  | |- exists alert, In alert (map_from ?f 0 (filter ?p ?l)) /\ _ =>
    assert (K : In n (filter p l));
    [ apply filter_In; split; [exact I|]; cbv beta; rewrite S, Hh; cbv zeta;
      rewrite (or_number_nonzero h 100 Z); now apply num_lt_spec
    | destruct (map_from_In_intro f (filter p l) n K 0%nat) as [k Hk] ]
  end.
  eexists. split; [exact Hk|].
  cbn [CustomerDashboard.Alert.vin CustomerDashboard.Alert.message
       CustomerDashboard.Alert.health_score].
  repeat split. exact Hh.
Qed.

Lemma X15_alert_not_dropped_witness :
  In (sample_notification (Str (str "VIN002")) (Some 65)) sample_notifications /\
  65 < 70 /\ ~ 65 == 0 /\
  exists alert,
    In alert (CustomerDashboard.formattedAlerts
                (CustomerDashboard.scheduledVins sample_appointments)
                sample_notifications) /\
    CustomerDashboard.Alert.vin alert = Str (str "VIN002") /\
    CustomerDashboard.Alert.message alert = Str (str "Service due") /\
    CustomerDashboard.Alert.health_score alert = Some 65.
Proof.
  assert (I : In (sample_notification (Str (str "VIN002")) (Some 65))
                 sample_notifications) by (right; right; left; reflexivity).
  split; [exact I|]. split; [q_decide|]. split; [q_decide|].
  apply (X15_alert_not_dropped sample_appointments sample_notifications
           (sample_notification (Str (str "VIN002")) (Some 65)) 65 I eq_refl);
    [q_decide | q_decide |].
  intros apt [<- | []]. reflexivity.
Defined.

(** X16.  The colour of a kept alert whose backend alert names no risk
    level: its [risk] defaults to "medium", so the card is never the yellow
    default; it is red ([isHighRisk]) exactly when the score is below 50 and
    orange ([isMediumRisk]) otherwise. *)
Theorem X16_alert_without_risk_level
    (allAppointments : list CustomerDashboard.Appointment.t)
    (maintenanceAlerts : list CustomerDashboard.Notification.t)
    (alert : CustomerDashboard.Alert.t) :
  Forall (fun n => CustomerDashboard.Notification.risk_level n = None)
         maintenanceAlerts ->
  In alert (CustomerDashboard.formattedAlerts
              (CustomerDashboard.scheduledVins allAppointments)
              maintenanceAlerts) ->
  CustomerDashboard.isMediumRisk alert = true /\
  exists h,
    CustomerDashboard.Alert.health_score alert = Some h /\
    (CustomerDashboard.isHighRisk alert = true <-> h < 50).
Proof.
  intros F H. unfold CustomerDashboard.formattedAlerts, map_index in H.
  apply map_from_In in H as (n & k & I & ->).
  apply filter_In in I as [I P].
  rewrite Forall_forall in F. specialize (F n I).
  unfold CustomerDashboard.isMediumRisk, CustomerDashboard.isHighRisk.
  cbn [CustomerDashboard.Alert.risk CustomerDashboard.Alert.health_score].
  rewrite F. cbn [or_str]. split; [reflexivity|].
  destruct (Set_has _ _); [discriminate P|]. cbv zeta in P.
  destruct (CustomerDashboard.Notification.health_score n) as [h|];
    [|discriminate P].
  exists h. split; [reflexivity|].
  change (strict_eq (str "medium") (str "high")) with false.
  cbn [orb]. apply num_lt_spec.
Qed.

Lemma X16_alert_without_risk_level_witness :
  Forall (fun n => CustomerDashboard.Notification.risk_level n = None)
         sample_notifications /\
  In sample_alert
     (CustomerDashboard.formattedAlerts
        (CustomerDashboard.scheduledVins sample_appointments)
        sample_notifications) /\
  CustomerDashboard.isMediumRisk sample_alert = true.
Proof.
  assert (F : Forall (fun n => CustomerDashboard.Notification.risk_level n = None)
                     sample_notifications) by (repeat constructor).
  assert (I : In sample_alert
                 (CustomerDashboard.formattedAlerts
                    (CustomerDashboard.scheduledVins sample_appointments)
                    sample_notifications)) by (left; reflexivity).
  split; [exact F|]. split; [exact I|].
  apply (X16_alert_without_risk_level sample_appointments sample_notifications
           sample_alert F I).
Defined.

(** ** The readings of the generated samples *)

Lemma forall_below (n : nat) (P : Z -> Prop) :
  Forall P (map Z.of_nat (seq 0 n)) ->
  forall r, (0 <= r < Z.of_nat n)%Z -> P r.
Proof.
  intros F r Hr. rewrite Forall_forall in F. apply F.
  apply in_map_iff. exists (Z.to_nat r). split; [lia|].
  apply in_seq. lia.
Qed.

Lemma rem_below (z k : Z) (n : nat) :
  k = Z.of_nat n ->
  (0 <= z)%Z -> (0 < n)%nat -> (0 <= Z.rem z k < Z.of_nat n)%Z.
Proof. intros -> Hz Hn. apply Z.rem_bound_pos; lia. Qed.

Ltac by_cases_below n Hz :=
  match goal with
  | |- context [Z.rem ?z ?k] =>
    let r := fresh "r" in
    let B := fresh "B" in
    pose proof (rem_below z k n eq_refl Hz ltac:(lia)) as B;
    generalize dependent (Z.rem z k); intros r B;
    revert r B; apply (forall_below n);
    repeat constructor; q_decide
  end.

(** A score of 50 up to 70 takes the second branch. *)
Lemma band_medium (b : Q) (z : Z) :
  b = 48.0 \/ b = 72.0 \/ b = 82.0 ->
  (0 <= z <= 6)%Z ->
  let hs := Spec.clamp (b + inject_Z (z - 3)) in
  50 <= Spec.round1 hs -> Spec.round1 hs < 70 ->
  num_lt hs 50 = false /\ num_lt hs 70 = true.
Proof.
  intros Hb Hz.
  assert (Hc : (z = 0 \/ z = 1 \/ z = 2 \/ z = 3 \/ z = 4 \/ z = 5 \/ z = 6)%Z)
    by lia.
  destruct Hb as [-> | [-> | ->]];
    destruct Hc as [-> | [-> | [-> | [-> | [-> | [-> | ->]]]]]];
    cbv zeta; intros L U;
    first
      [ split; vm_compute; reflexivity
      | exfalso; apply L; vm_compute; reflexivity
      | exfalso; vm_compute in U; discriminate U ].
Qed.

Lemma OK_inj {A : Type} (a b : A) : OK a = OK b -> a = b.
Proof. now intros [= ->]. Qed.

(** The ranges of the readings of one sample, by the band of its score, as
    the comments of the source give them. *)
Lemma sample_ranges (now : Clock) (s : jsstring) (i : Z) (x : TelemetrySample) :
  (0 <= i)%Z ->
  iteration now (Str s) (Spec.baseHealth s) (Spec.seed s) i = OK x ->
  (40 <= speed x <= 69)%Z /\
  mileage x = (15000 + i * 10)%Z /\
  (Spec.healthScoreAt s i < 50 ->
   readings_within x 95 102 28 32 11.9 12.1 0.85 0.95 0.65 0.74) /\
  (50 <= Spec.healthScoreAt s i -> Spec.healthScoreAt s i < 70 ->
   readings_within x 88 93 32 37 12.2 12.4 0.65 0.75 0.35 0.44 /\
   error_codes x = []) /\
  (70 <= Spec.healthScoreAt s i ->
   readings_within x 85 89 38 42 12.6 12.7 0.55 0.60 0.15 0.19).
Proof.
  intros Hi E.
  pose proof (seed_nonneg s) as Sd.
  assert (Hz : (0 <= Spec.seed s + i)%Z) by lia.
  destruct (rem7_cases (Spec.seed s + i) Hz) as [R7 _].
  pose proof (Z.mod_pos_bound (Spec.seed s + i) 7 ltac:(lia)) as M.
  destruct (band_of_score (Spec.baseHealth s) ((Spec.seed s + i) mod 7)
              (baseHealth_cases s) ltac:(lia)) as [Lo Hi'].
  pose proof (band_medium (Spec.baseHealth s) ((Spec.seed s + i) mod 7)
                (baseHealth_cases s) ltac:(lia)) as Mid.
  cbv zeta in Lo, Hi', Mid.
  fold (Spec.healthScoreAt s i) in Lo, Hi', Mid.
  unfold iteration in E. cbv zeta in E.
  destruct (new_Date (getTime now - i * 60000)) as [t|]; [|discriminate E].
  cbv beta iota delta [toISOString bind] in E.
  apply OK_inj in E. subst x.
  rewrite R7. fold (Spec.clamp (Spec.baseHealth s
                                + inject_Z ((Spec.seed s + i) mod 7 - 3))).
  unfold readings_within, within.
  cbv beta iota delta [speed mileage engine_temperature oil_pressure
                       battery_voltage vibration_level prediction_risk
                       error_codes].
  split; [pose proof (Z.rem_bound_pos (Spec.seed s + i) 30 Hz ltac:(lia)); lia|].
  split; [reflexivity|].
  split; [|split].
  - intros L. rewrite (Lo L).
    cbv beta iota delta [engineTemp oilPressure batteryVoltage vibrationLevel
                         predictionRisk].
    split; [by_cases_below 8%nat Hz|].
    split; [by_cases_below 5%nat Hz|].
    split; [by_cases_below 3%nat Hz|].
    split; [by_cases_below 2%nat Hz|].
    by_cases_below 10%nat Hz.
  - intros L U. destruct (Mid L U) as [A B]. rewrite A, B.
    cbv beta iota delta [engineTemp oilPressure batteryVoltage vibrationLevel
                         predictionRisk errorCodes].
    split; [|reflexivity].
    split; [by_cases_below 6%nat Hz|].
    split; [by_cases_below 6%nat Hz|].
    split; [by_cases_below 3%nat Hz|].
    split; [by_cases_below 2%nat Hz|].
    by_cases_below 10%nat Hz.
  - intros L. destruct (Hi' L) as [A B]. rewrite A, B.
    cbv beta iota delta [engineTemp oilPressure batteryVoltage vibrationLevel
                         predictionRisk].
    split; [by_cases_below 5%nat Hz|].
    split; [by_cases_below 5%nat Hz|].
    split; [by_cases_below 2%nat Hz|].
    split; [by_cases_below 2%nat Hz|].
    by_cases_below 5%nat Hz.
Qed.

(** X17.  The readings of every generated sample lie in the ranges that the
    comments of [generateSampleTelemetry] give for the band of its score:
    below 50, temperature 95-102, oil pressure 28-32, battery 11.9-12.1,
    vibration 0.85-0.95 and risk 0.65-0.74; from 50 up to 70, 88-93, 32-37,
    12.2-12.4, 0.65-0.75 and 0.35-0.44, without error codes; from 70 on,
    85-89, 38-42, 12.6-12.7, 0.55-0.60 and 0.15-0.19.  The speed is always
    between 40 and 69. *)
Theorem X17_sample_readings_in_range (now : Clock) (s : jsstring) :
  exists data,
    generateSampleTelemetry now (Str s) = OK data /\
    forall x, In x data ->
      exists h,
        health_score x = Some h /\
        (40 <= speed x <= 69)%Z /\
        (h < 50 ->
         readings_within x 95 102 28 32 11.9 12.1 0.85 0.95 0.65 0.74) /\
        (50 <= h -> h < 70 ->
         readings_within x 88 93 32 37 12.2 12.4 0.65 0.75 0.35 0.44 /\
         error_codes x = []) /\
        (70 <= h ->
         readings_within x 85 89 38 42 12.6 12.7 0.55 0.60 0.15 0.19).
Proof.
  destruct (generateSeries_total 20 now s ltac:(lia)) as [data G].
  exists data. split; [exact G|].
  intros x Hx.
  destruct (series_sample 20 now s data x G Hx) as (i & Hi & Hxi).
  destruct (sample_fields now s i x ltac:(lia) Hxi) as (_ & H & _).
  destruct (sample_ranges now s i x ltac:(lia) Hxi) as (S & _ & R).
  exists (Spec.healthScoreAt s i). split; [exact H|]. split; [exact S | exact R].
Qed.

(** The mileages of the samples follow the loop indices. *)
Lemma mileages_of_iterations (now : Clock) (s : jsstring)
    (idx : list Z) (new : list TelemetrySample) :
  Forall (fun k => 0 <= k)%Z idx ->
  Forall2 (fun k x =>
             iteration now (Str s) (Spec.baseHealth s) (Spec.seed s) k = OK x)
          idx new ->
  map mileage new = map (fun k => (15000 + k * 10)%Z) idx.
Proof.
  intros P F. induction F as [|k x idx new Hk F IH]; simpl; [reflexivity|].
  apply Forall_cons_iff in P as [Pk P].
  destruct (sample_ranges now s k x Pk Hk) as (_ & -> & _).
  now rewrite (IH P).
Qed.

(** X18.  The odometer of the generated series runs backwards: the returned
    array is in ascending order of time, and from each sample to the next,
    one minute later, the mileage falls by 10, from 15190 at the oldest
    sample to 15000 at the newest. *)
Theorem X18_generated_mileage_decreases (now : Clock) (s : jsstring) :
  exists data,
    generateSampleTelemetry now (Str s) = OK data /\
    map mileage data
    = map (fun k => (15190 - 10 * Z.of_nat k)%Z) (seq 0 20) /\
    forall k a b,
      nth_error data k = Some a ->
      nth_error data (S k) = Some b ->
      time_of (timestamp b) = (time_of (timestamp a) + 60000)%Z /\
      mileage b = (mileage a - 10)%Z.
Proof.
  destruct (generateSeries_total 20 now s ltac:(lia)) as [data G].
  exists data. split; [exact G|].
  apply generateSeries_inv in G as (new & -> & F).
  pose proof (times_of_iterations _ _ _ _ _ _ F) as T.
  assert (P : Forall (fun k => 0 <= k)%Z (indices 0 20))
    by (cbn; repeat constructor; lia).
  pose proof (mileages_of_iterations now s _ _ P F) as M.
  assert (M' : map mileage (rev new)
               = map (fun k => (15190 - 10 * Z.of_nat k)%Z) (seq 0 20)).
  { rewrite map_rev, M. cbn. repeat (f_equal; [lia|]). reflexivity. }
  assert (T' : times (rev new)
               = map (fun k => (getTime now - (19 - Z.of_nat k) * 60000)%Z)
                     (seq 0 20)).
  { unfold times in *. rewrite map_rev, T. cbn.
    repeat (f_equal; [lia|]). reflexivity. }
  split; [exact M'|].
  intros k a b Ha Hb.
  assert (Ta : nth_error (times (rev new)) k = Some (time_of (timestamp a)))
    by (unfold times; now rewrite nth_error_map, Ha).
  assert (Tb : nth_error (times (rev new)) (S k) = Some (time_of (timestamp b)))
    by (unfold times; now rewrite nth_error_map, Hb).
  assert (Ma : nth_error (map mileage (rev new)) k = Some (mileage a))
    by (now rewrite nth_error_map, Ha).
  assert (Mb : nth_error (map mileage (rev new)) (S k) = Some (mileage b))
    by (now rewrite nth_error_map, Hb).
  rewrite T' in Ta, Tb. rewrite M' in Ma, Mb.
  clear - Ta Tb Ma Mb. cbn in Ta, Tb, Ma, Mb.
  do 19 (destruct k as [|k];
         [cbn in Ta, Tb, Ma, Mb;
          injection Ta as Ta; injection Tb as Tb;
          injection Ma as Ma; injection Mb as Mb; lia|]).
  destruct k as [|k]; cbn in Tb; [discriminate Tb|].
  destruct k; discriminate Ta.
Qed.

(** X19.  For a vehicle without a usable VIN ([undefined], [null] or the
    empty string) the monitoring view shows the score 45 whatever the
    telemetry state holds: [getLatestHealthScore] never reads the telemetry
    for a falsy VIN. *)
Theorem X19_falsy_vin_ignores_telemetry (telemetry : list TelemetrySample)
    (vin : value) :
  truthy vin = false ->
  exists h, getLatestHealthScore telemetry vin = OK h /\ h == 45.
Proof.
  intros Hv. unfold getLatestHealthScore. rewrite Hv. cbn [negb orb].
  destruct vin as [| |[|c s]]; try discriminate Hv;
    eexists; (split; [vm_compute; reflexivity | q_decide]).
Qed.

Lemma X19_falsy_vin_ignores_telemetry_witness :
  truthy Undefined = false /\
  exists h, getLatestHealthScore backend_records Undefined = OK h /\ h == 45.
Proof.
  split; [reflexivity|].
  apply (X19_falsy_vin_ignores_telemetry backend_records Undefined).
  reflexivity.
Defined.
